(** * Calliope: capacity constraints and the cost objective

    A shallow embedding of

    - [calliope/backend/pyomo/constraints/capacity.py]
      ([get_capacity_constraint] and the rules built on it), and
    - [calliope/backend/pyomo/objective.py] ([minmax_cost_optimization]),

    with the properties of the capacity-constraint resolver, the
    resource-area rule, the systemwide rule and the objective. *)

From Stdlib Require Import ZArith QArith Lia List Bool.
From Stdlib Require Import Lqa.
From stdpp Require Import base strings gmap list.

Import ListNotations.
Local Open Scope string_scope.

(** ** Python values

    The parameters the rules read are Python scalars: [None], a [bool]
    or a number.  Numbers are kept exact: a rational, the two
    infinities, or NaN (rounding of binary64 products is not modelled,
    and an [int] and a [float] of the same value are one number). *)

Module Py.

Inductive num : Type :=
| Fin (q : Q)
| PInf
| NInf
| NaN.

Inductive value : Type :=
| PNone
| PBool (b : bool)
| PNum (x : num).

Definition zero : value := PNum (Fin 0).
Definition inf : value := PNum PInf.

(** Sign of a rational as a comparison with 0. *)
Definition sgn (q : Q) : comparison := (0 ?= q)%Q.

(** The product of two numbers, with IEEE's rules at the infinities. *)
Definition mul_inf (positive : bool) (y : num) : num :=
  match y with
  | Fin q =>
      match sgn q with
      | Eq => NaN
      | Lt => if positive then PInf else NInf
      | Gt => if positive then NInf else PInf
      end
  | PInf => if positive then PInf else NInf
  | NInf => if positive then NInf else PInf
  | NaN => NaN
  end.

Definition mul (x y : num) : num :=
  match x, y with
  | NaN, _ => NaN
  | _, NaN => NaN
  | Fin a, Fin b => Fin (a * b)
  | PInf, _ => mul_inf true y
  | NInf, _ => mul_inf false y
  | _, PInf => mul_inf true x
  | _, NInf => mul_inf false x
  end.

Definition is_zero (x : num) : bool :=
  match x with Fin q => Qeq_bool q 0 | _ => false end.

Definition is_infinite (x : num) : bool :=
  match x with PInf | NInf => true | _ => false end.

(** [bool(v)]. *)
Definition truthy (v : value) : bool :=
  match v with
  | PNone => false
  | PBool b => b
  | PNum x => negb (is_zero x)
  end.

(** [v is not False] and [v is not None]. *)
Definition is_not_False (v : value) : bool :=
  match v with PBool false => false | _ => true end.

Definition is_not_None (v : value) : bool :=
  match v with PNone => false | _ => true end.

(** [v == 0]: [False == 0] holds, [None == 0] does not. *)
Definition eq_zero (v : value) : bool :=
  match v with
  | PNone => false
  | PBool b => negb b
  | PNum x => is_zero x
  end.

(** A [bool] used as a number. *)
Definition as_num (v : value) : option num :=
  match v with
  | PNone => None
  | PBool b => Some (Fin (if b then 1 else 0))
  | PNum x => Some x
  end.

End Py.

Import Py.

(** ** Exceptions and the log of parameter look-ups *)

Inductive exn : Type :=
| ModelError (msg : string)
| TypeError.

Inductive outcome (A : Type) : Type :=
| Return (a : A)
| Raise (e : exn).
Arguments Return {A} a.
Arguments Raise {A} e.

(** The index a parameter is read at: a (node, tech) pair or a tech. *)
Inductive pindex : Type :=
| LocTech (node tech : string)
| Tech (tech : string).

Definition pkey : Type := string * pindex.

(** A computation yields an outcome and the look-ups it made, in order. *)
Definition M (A : Type) : Type := outcome A * list pkey.

Definition ret {A} (a : A) : M A := (Return a, []).
Definition raise {A} (e : exn) : M A := (Raise e, []).
Definition bind {A B} (c : M A) (k : A -> M B) : M B :=
  match c with
  | (Return a, l) => let '(r, l') := k a in (r, (l ++ l')%list)
  | (Raise e, l) => (Raise e, l)
  end.

#[export] Instance M_ret : MRet M := @ret.
#[export] Instance M_bind : MBind M := fun A B k c => bind c k.

Definition result {A} (c : M A) : outcome A := fst c.
Definition fetched {A} (c : M A) : list pkey := snd c.

(** ** The model object *)

(** A decision variable [getattr(backend_model, name)[node, tech]]; the
    rules only place it in a constraint, they never read a value. *)
Inductive dvar : Type :=
| DVar (name node tech : string).

(** What a rule hands back to Pyomo. *)
Inductive constraint : Type :=
| Equality (v : dvar) (rhs : value)            (* [v == rhs] *)
| Range (lo : value) (v : dvar) (hi : value)   (* the tuple [(lo, v, hi)] *)
| NoConstraint                                 (* [po.Constraint.NoConstraint] *)
| SumEquality (vs : list dvar) (rhs : value)   (* [quicksum(vs) == rhs] *)
| SumAtMost (vs : list dvar) (rhs : value)     (* [quicksum(vs) <= rhs] *)
| Constant (b : bool).   (* a Python [bool]: no variable was compared *)

(** A variable of the objective, indexed as in the model:
    [unmet_demand[carrier, node, timestep]],
    [unused_supply[carrier, node, timestep]], [cost[class, node, tech]]. *)
Definition index3 : Type := string * string * string.

Record backend_model : Type := {
  (* what the capacity rules read *)
  param_store : string -> pindex -> value;
  nodes : list string;
  energy_cap_index : gset (string * string);
  (* what the objective reads *)
  run_config : gmap string value;          (* [__calliope_run_config] *)
  objective_sense : string;
  timesteps : list string;
  unmet_demand_index : list index3;
  unused_supply_index : list index3;
  timestep_weights : string -> Q;
  bigM : Q;
  cost_index : list index3;
  objective_cost_class : list (string * Q);
}.

(** Modelled from the spec: [get_param] of [calliope.backend.pyomo.util]
    is not among the sources.  It looks a scalar parameter up at a
    (node, tech) pair or at a tech, yields the value or the absence
    marker, and never raises.  Every call is logged. *)
Definition get_param (m : backend_model) (name : string) (idx : pindex)
  : M value :=
  (Return (param_store m name idx), [(name, idx)]).

(** [po.value] leaves a plain Python scalar as it is. *)
Definition po_value (v : value) : value := v.

(** [np.isinf]: a [TypeError] on [None], [False] on a [bool]. *)
Definition np_isinf (v : value) : M bool :=
  match v with
  | PNone => raise TypeError
  | PBool _ => ret false
  | PNum x => ret (is_infinite x)
  end.

(** [x *= scale]: a [TypeError] when an operand is [None]. *)
Definition imul (x scale : value) : M value :=
  match as_num x, as_num scale with
  | Some a, Some b => ret (PNum (mul a b))
  | _, _ => raise TypeError
  end.

(** ** capacity.py *)

Definition inf_equals_message (parameter node tech : string) : string :=
  "Cannot use inf for " +:+ parameter +:+ "_equals for `" +:+ tech
    +:+ "` at `" +:+ node +:+ "`".

Definition get_capacity_constraint (m : backend_model)
    (parameter node tech : string) (_equals _max _min scale : value)
  : M constraint :=
  let decision_variable := DVar parameter in
  _equals ← (if negb (truthy _equals)
             then get_param m (parameter +:+ "_equals") (LocTech node tech)
             else ret _equals);
  _max ← (if negb (truthy _max)
          then get_param m (parameter +:+ "_max") (LocTech node tech)
          else ret _max);
  _min ← (if negb (truthy _min)
          then get_param m (parameter +:+ "_min") (LocTech node tech)
          else ret _min);
  if is_not_False (po_value _equals) && is_not_None (po_value _equals) then
    isinf ← np_isinf (po_value _equals);
    if (isinf : bool) then
      raise (ModelError (inf_equals_message parameter node tech))
    else
      _equals ← (if truthy scale then imul _equals scale else ret _equals);
      ret (Equality (decision_variable node tech) _equals)
  else
    unconstrained ← (if eq_zero (po_value _min)
                     then np_isinf (po_value _max) else ret false);
    if (unconstrained : bool) then ret NoConstraint
    else
      _max ← (if truthy scale then imul _max scale else ret _max);
      _min ← (if truthy scale then imul _min scale else ret _min);
      ret (Range _min (decision_variable node tech) _max).

Definition storage_capacity_constraint_rule (m : backend_model)
    (node tech : string) : M constraint :=
  get_capacity_constraint m "storage_cap" node tech PNone PNone PNone PNone.

Definition resource_capacity_constraint_rule (m : backend_model)
    (node tech : string) : M constraint :=
  get_capacity_constraint m "resource_cap" node tech PNone PNone PNone PNone.

Definition resource_area_constraint_rule (m : backend_model)
    (node tech : string) : M constraint :=
  energy_cap_max ← get_param m "energy_cap_max" (LocTech node tech);
  area_per_energy_cap ←
    get_param m "resource_area_per_energy_cap" (LocTech node tech);
  if eq_zero (po_value energy_cap_max)
     && negb (truthy (po_value area_per_energy_cap))
  then ret (Equality (DVar "resource_area" node tech) zero)
  else get_capacity_constraint m "resource_area" node tech
         PNone PNone PNone PNone.

Definition energy_capacity_constraint_rule (m : backend_model)
    (node tech : string) : M constraint :=
  scale ← get_param m "energy_cap_scale" (LocTech node tech);
  get_capacity_constraint m "energy_cap" node tech PNone PNone PNone scale.

(** [0 <= v] on Python scalars: a [TypeError] on [None]. *)
Definition zero_le (v : value) : M bool :=
  match v with
  | PNone => raise TypeError
  | PBool _ => ret true
  | PNum (Fin q) => ret (Qle_bool 0 q)
  | PNum PInf => ret true
  | PNum _ => ret false
  end.

(** [po.quicksum(vs) == rhs].  The sum of no terms is the int 0, and
    [0 == rhs] is a Python [bool]. *)
Definition sum_equals (vs : list dvar) (rhs : value) : M constraint :=
  match vs with
  | [] => ret (Constant (eq_zero rhs))
  | _ :: _ => ret (SumEquality vs rhs)
  end.

(** [po.quicksum(vs) <= rhs].  A [TypeError] when [rhs] is [None]; the
    sum of no terms is the int 0, and [0 <= rhs] is a Python [bool]. *)
Definition sum_at_most (vs : list dvar) (rhs : value) : M constraint :=
  match vs with
  | [] => b ← zero_le rhs; ret (Constant b)
  | _ :: _ =>
      match rhs with
      | PNone => raise TypeError
      | _ => ret (SumAtMost vs rhs)
      end
  end.

Definition energy_capacity_systemwide_constraint_rule (m : backend_model)
    (tech : string) : M constraint :=
  max_systemwide ← get_param m "energy_cap_max_systemwide" (Tech tech);
  equals_systemwide ← get_param m "energy_cap_equals_systemwide" (Tech tech);
  let energy_cap :=
    map (fun node => DVar "energy_cap" node tech)
        (filter (fun node => (node, tech) ∈ energy_cap_index m) (nodes m)) in
  if truthy equals_systemwide
  then sum_equals energy_cap equals_systemwide
  else sum_at_most energy_cap max_systemwide.

(** ** objective.py *)

Inductive ovar : Type :=
| UnmetDemand (i : index3)
| UnusedSupply (i : index3)
| Cost (i : index3).

(** The expression a rule builds from variables and parameters. *)
Inductive expr : Type :=
| Const (q : Q)
| Var (v : ovar)
| Add (a b : expr)
| Sub (a b : expr)
| Mul (a b : expr).

(** Python's [sum]: starts from [0] and adds from the left. *)
Definition py_sum (es : list expr) : expr :=
  fold_left Add es (Const 0).

(** [var[:, :, timestep]]: the entries whose last index is [timestep]. *)
Definition slice_last (mk : index3 -> ovar) (idx : list index3)
    (timestep : string) : list expr :=
  map (fun i => Var (mk i)) (filter (fun i => i.2 = timestep) idx).

(** [var[k, :, :]]: the entries whose first index is [k]. *)
Definition slice_first (mk : index3 -> ovar) (idx : list index3)
    (k : string) : list expr :=
  map (fun i => Var (mk i)) (filter (fun i => i.1.1 = k) idx).

(** [run_config.get("ensure_feasibility", False)], as a condition. *)
Definition ensure_feasibility (m : backend_model) : bool :=
  truthy (default (PBool false) (run_config m !! "ensure_feasibility")).

(** The local [unmet_demand] of [obj_rule]. *)
Definition unmet_demand_term (m : backend_model) : expr :=
  if ensure_feasibility m then
    let unmet_demand :=
      py_sum
        (map (fun timestep =>
                Sub (py_sum (slice_last UnmetDemand (unmet_demand_index m)
                                        timestep))
                    (Mul (Mul (py_sum (slice_last UnusedSupply
                                         (unused_supply_index m) timestep))
                              (Const (timestep_weights m timestep)))
                         (Const (bigM m))))
             (timesteps m)) in
    if String.eqb (objective_sense m) "maximize"
    then Mul unmet_demand (Const (-1))
    else unmet_demand
  else Const 0.

(** The weighted costs [obj_rule] returns beside the penalty. *)
Definition cost_term (m : backend_model) : expr :=
  py_sum
    (map (fun kv : string * Q =>
            Mul (py_sum (slice_first Cost (cost_index m) kv.1))
                (Const kv.2))
         (objective_cost_class m)).

(** [obj_rule], the rule [minmax_cost_optimization] registers as the
    objective. *)
Definition obj_rule (m : backend_model) : expr :=
  Add (cost_term m) (unmet_demand_term m).

(** The value of an expression at a valuation of the variables. *)
Fixpoint eval (rho : ovar -> Q) (e : expr) : Q :=
  match e with
  | Const q => q
  | Var v => rho v
  | Add a b => eval rho a + eval rho b
  | Sub a b => eval rho a - eval rho b
  | Mul a b => eval rho a * eval rho b
  end.

(** The variables an expression mentions. *)
Fixpoint vars (e : expr) : list ovar :=
  match e with
  | Const _ => []
  | Var v => [v]
  | Add a b | Sub a b | Mul a b => vars a ++ vars b
  end.

Definition is_slack (v : ovar) : bool :=
  match v with
  | UnmetDemand _ | UnusedSupply _ => true
  | Cost _ => false
  end.

(** ** Vocabulary of the properties *)

(** The value a resolver argument stands for once the store has been
    asked: the supplied one when it is truthy, the stored one otherwise. *)
Definition resolved (m : backend_model) (parameter suffix node tech : string)
    (supplied : value) : value :=
  if truthy supplied then supplied
  else param_store m (parameter +:+ suffix) (LocTech node tech).

(** A parameter is set when it is neither [None] nor the [False]
    sentinel; zero is a set value. *)
Definition is_set (v : value) : Prop := v <> PNone /\ v <> PBool false.
Definition absent (v : value) : Prop := v = PNone \/ v = PBool false.

Definition finite (v : value) : Prop :=
  match v with
  | PNum (Fin _) | PBool _ => True
  | _ => False
  end.

(** The look-up a falsy argument causes. *)
Definition lookup_for (parameter suffix node tech : string)
    (supplied : value) : list pkey :=
  if truthy supplied then []
  else [(parameter +:+ suffix, LocTech node tech)].

(** A computation that asks the store nothing. *)
Definition silent {A} (c : M A) : Prop := fetched c = [].

(** Sum of a list of rationals, from the left as Python adds. *)
Definition sumQ (l : list Q) : Q := fold_left Qplus l 0%Q.

(** The model with its objective sense replaced. *)
Definition with_sense (sense : string) (m : backend_model) : backend_model :=
  {| param_store := param_store m; nodes := nodes m;
     energy_cap_index := energy_cap_index m;
     run_config := run_config m; objective_sense := sense;
     timesteps := timesteps m;
     unmet_demand_index := unmet_demand_index m;
     unused_supply_index := unused_supply_index m;
     timestep_weights := timestep_weights m; bigM := bigM m;
     cost_index := cost_index m;
     objective_cost_class := objective_cost_class m |}.

(** The total of a slack variable over one timestep. *)
Definition slack_total (rho : ovar -> Q) (mk : index3 -> ovar)
    (idx : list index3) (timestep : string) : Q :=
  sumQ (map (fun i => rho (mk i)) (filter (fun i => i.2 = timestep) idx)).

(** The penalty in the spec's words: for every timestep, (sum of
    unmet demand - sum of unused supply) x timestep weight x bigM,
    summed over the timesteps. *)
Definition penalty_as_specified (rho : ovar -> Q) (m : backend_model) : Q :=
  sumQ (map (fun t =>
               ((slack_total rho UnmetDemand (unmet_demand_index m) t
                 - slack_total rho UnusedSupply (unused_supply_index m) t)
                * timestep_weights m t * bigM m)%Q)
            (timesteps m)).

(** The weighted sum over the cost classes of the per-class costs. *)
Definition weighted_cost (rho : ovar -> Q) (m : backend_model) : Q :=
  sumQ (map (fun kv : string * Q =>
               (sumQ (map (fun i => rho (Cost i))
                          (filter (fun i => i.1.1 = kv.1) (cost_index m)))
                * kv.2)%Q)
            (objective_cost_class m)).

(** ** Sample models *)

Definition store_of (g : gmap string value) : string -> pindex -> value :=
  fun name _ => default (PBool false) (g !! name).

Definition model_of (g : gmap string value) (ns : list string)
    (idx : gset (string * string)) : backend_model :=
  {| param_store := store_of g; nodes := ns; energy_cap_index := idx;
     run_config := ∅; objective_sense := "minimize"; timesteps := [];
     unmet_demand_index := []; unused_supply_index := [];
     timestep_weights := fun _ => 1%Q; bigM := 1%Q; cost_index := [];
     objective_cost_class := [] |}.

(** [energy_cap_equals = 50] beside contradictory bounds. *)
Definition equals_50 : backend_model :=
  model_of (<["energy_cap_equals" := PNum (Fin 50)]>
            (<["energy_cap_max" := PNum (Fin 10)]>
             (<["energy_cap_min" := PNum (Fin 20)]> ∅))) [] ∅.

(** [storage_cap_equals = inf]. *)
Definition equals_inf : backend_model :=
  model_of (<["storage_cap_equals" := inf]>
            (<["storage_cap_max" := inf]>
             (<["storage_cap_min" := zero]> ∅))) [] ∅.

(** No bounds beyond the defaults [min = 0], [max = inf]. *)
Definition defaults_only : backend_model :=
  model_of (<["energy_cap_max" := inf]>
            (<["energy_cap_min" := zero]> ∅)) [] ∅.

(** [min = 0] beside [max = -inf]. *)
Definition max_minus_inf : backend_model :=
  model_of (<["energy_cap_max" := PNum NInf]>
            (<["energy_cap_min" := zero]> ∅)) [] ∅.

(** [min = 1], [max = 10]. *)
Definition one_to_ten : backend_model :=
  model_of (<["energy_cap_max" := PNum (Fin 10)]>
            (<["energy_cap_min" := PNum (Fin 1)]> ∅)) [] ∅.

(** [storage_cap_equals = 7] in the store. *)
Definition stored_7 : backend_model :=
  model_of (<["storage_cap_equals" := PNum (Fin 7)]>
            (<["storage_cap_max" := inf]>
             (<["storage_cap_min" := zero]> ∅))) [] ∅.

(** [energy_cap_max = 0], an area ratio set to 0, and area bounds
    [0 .. 10]. *)
Definition area_ratio_zero : backend_model :=
  model_of (<["energy_cap_max" := zero]>
            (<["resource_area_per_energy_cap" := zero]>
             (<["resource_area_max" := PNum (Fin 10)]>
              (<["resource_area_min" := zero]> ∅)))) [] ∅.

(** [energy_cap_max = 0], no area ratio, [resource_area_equals = 5]. *)
Definition area_no_ratio : backend_model :=
  model_of (<["energy_cap_max" := zero]>
            (<["resource_area_equals" := PNum (Fin 5)]>
             (<["resource_area_max" := PNum (Fin 10)]>
              (<["resource_area_min" := zero]> ∅)))) [] ∅.

(** Three nodes, the technology buildable at two of them. *)
Definition three_nodes (g : gmap string value) : backend_model :=
  model_of g ["A"; "B"; "C"] {[ ("A", "wind"); ("C", "wind") ]}.

(** Systemwide [equals = 30] beside [max = 100]. *)
Definition systemwide_30 : backend_model :=
  three_nodes (<["energy_cap_equals_systemwide" := PNum (Fin 30)]>
               (<["energy_cap_max_systemwide" := PNum (Fin 100)]> ∅)).

(** Systemwide [equals = 0] beside [max = 100]. *)
Definition systemwide_0 : backend_model :=
  three_nodes (<["energy_cap_equals_systemwide" := zero]>
               (<["energy_cap_max_systemwide" := PNum (Fin 100)]> ∅)).

(** One node, one timestep of weight 2, [bigM = 10], one cost class. *)
Definition slack_model (sense : string) (config : gmap string value)
  : backend_model :=
  {| param_store := fun _ _ => PNone; nodes := ["N"];
     energy_cap_index := ∅;
     run_config := config; objective_sense := sense;
     timesteps := ["t1"];
     unmet_demand_index := [("power", "N", "t1")];
     unused_supply_index := [("power", "N", "t1")];
     timestep_weights := fun _ => 2%Q; bigM := 10%Q;
     cost_index := [("monetary", "N", "wind")];
     objective_cost_class := [("monetary", 1%Q)] |}.

Definition feasibility_on : gmap string value :=
  {[ "ensure_feasibility" := PBool true ]}.

(** Unmet demand 3, unused supply 1, cost 5. *)
Definition slack_values (v : ovar) : Q :=
  match v with
  | UnmetDemand _ => 3%Q
  | UnusedSupply _ => 1%Q
  | Cost _ => 5%Q
  end.

(** ** capacity.py: the rules derived from another variable *)

Inductive relop : Type :=
| AtMost      (* [<=] *)
| AtLeast     (* [>=] *)
| EqualTo.    (* [==] *)

(** A constraint of one decision variable against another. *)
Inductive derived_constraint : Type :=
| Scaled (lhs : dvar) (op : relop) (rhs : dvar) (coef : value)
                                     (* [lhs op rhs * coef] *)
| Same (lhs rhs : dvar).             (* [lhs == rhs] *)

Definition energy_capacity_storage_constraint_rule_old (m : backend_model)
    (node tech : string) : M derived_constraint :=
  charge_rate ← get_param m "charge_rate" (LocTech node tech);
  ret (Scaled (DVar "energy_cap" node tech) AtMost
              (DVar "storage_cap" node tech) charge_rate).

Definition energy_capacity_storage_min_constraint_rule (m : backend_model)
    (node tech : string) : M derived_constraint :=
  ratio ← get_param m "energy_cap_per_storage_cap_min" (LocTech node tech);
  ret (Scaled (DVar "energy_cap" node tech) AtLeast
              (DVar "storage_cap" node tech) ratio).

Definition energy_capacity_storage_max_constraint_rule (m : backend_model)
    (node tech : string) : M derived_constraint :=
  ratio ← get_param m "energy_cap_per_storage_cap_max" (LocTech node tech);
  ret (Scaled (DVar "energy_cap" node tech) AtMost
              (DVar "storage_cap" node tech) ratio).

Definition energy_capacity_storage_equals_constraint_rule (m : backend_model)
    (node tech : string) : M derived_constraint :=
  ratio ← get_param m "energy_cap_per_storage_cap_equals" (LocTech node tech);
  ret (Scaled (DVar "energy_cap" node tech) EqualTo
              (DVar "storage_cap" node tech) ratio).

Definition resource_capacity_equals_energy_capacity_constraint_rule
    (m : backend_model) (node tech : string) : M derived_constraint :=
  ret (Same (DVar "resource_cap" node tech) (DVar "energy_cap" node tech)).

Definition resource_area_per_energy_capacity_constraint_rule
    (m : backend_model) (node tech : string) : M derived_constraint :=
  area_per_energy_cap ←
    get_param m "resource_area_per_energy_cap" (LocTech node tech);
  ret (Scaled (DVar "resource_area" node tech) EqualTo
              (DVar "energy_cap" node tech) area_per_energy_cap).

(** What [resource_area_capacity_per_loc_constraint_rule] reads of the
    model object, which [backend_model] above does not carry: the index
    set of [resource_area], as (node, tech) pairs, and the
    [available_area] parameter, read as [available_area[node]] without
    [get_param]. *)
Record area_model : Type := {
  resource_area_index : list (string * string);
  available_area : string -> value;
}.

(** [sum(resource_area[node, :]) <= available_area]. *)
Definition resource_area_capacity_per_loc_constraint_rule (a : area_model)
    (node : string) : M constraint :=
  let available_area := available_area a node in
  ret (SumAtMost
         (map (fun i : string * string => DVar "resource_area" i.1 i.2)
              (filter (fun i : string * string => i.1 = node)
                      (resource_area_index a)))
         available_area).

(** ** Meaning of the constraints *)

(** A parameter as a coefficient or a bound: a finite number, a [bool]
    counting as 1 or 0. *)
Definition finite_of (v : value) : option Q :=
  match v with
  | PNum (Fin q) => Some q
  | PBool b => Some (if b then 1%Q else 0%Q)
  | _ => None
  end.

Definition rel (op : relop) (x y : Q) : Prop :=
  match op with
  | AtMost => (x <= y)%Q
  | AtLeast => (y <= x)%Q
  | EqualTo => (x == y)%Q
  end.

(** A valuation of the decision variables meets a derived constraint.
    A coefficient that is not finite gives the constraint no meaning. *)
Definition satisfies (rho : dvar -> Q) (c : derived_constraint) : Prop :=
  match c with
  | Scaled l op r k =>
      match finite_of k with
      | Some q => rel op (rho l) (rho r * q)%Q
      | None => False
      end
  | Same l r => (rho l == rho r)%Q
  end.

(** [x <= b] and [b <= x] for a bound [b]; an infinite bound on the far
    side always holds, [None] and NaN never compare. *)
Definition below (x : Q) (b : value) : Prop :=
  match b with
  | PNum PInf => True
  | _ => match finite_of b with Some q => (x <= q)%Q | None => False end
  end.

Definition above (x : Q) (b : value) : Prop :=
  match b with
  | PNum NInf => True
  | _ => match finite_of b with Some q => (q <= x)%Q | None => False end
  end.

Definition equal_to (x : Q) (b : value) : Prop :=
  match finite_of b with Some q => (x == q)%Q | None => False end.

(** A valuation of the decision variables meets a constraint. *)
Definition holds (rho : dvar -> Q) (c : constraint) : Prop :=
  match c with
  | Equality v rhs => equal_to (rho v) rhs
  | Range lo v hi => above (rho v) lo /\ below (rho v) hi
  | NoConstraint => True
  | SumEquality vs rhs => equal_to (sumQ (map rho vs)) rhs
  | SumAtMost vs rhs => below (sumQ (map rho vs)) rhs
  | Constant b => b = true
  end.

(** [np.isinf] as a condition on a value that is not [None]. *)
Definition infinite (v : value) : bool :=
  match v with
  | PNum x => is_infinite x
  | _ => false
  end.

(** ** Further sample models *)

(** [energy_cap_equals = 50] under a scale of 2. *)
Definition scaled_equals : backend_model :=
  model_of (<["energy_cap_scale" := PNum (Fin 2)]>
            (<["energy_cap_equals" := PNum (Fin 50)]>
             (<["energy_cap_max" := inf]>
              (<["energy_cap_min" := zero]> ∅)))) [] ∅.

(** [energy_cap_max = 0], no area ratio, [resource_area_equals = inf]. *)
Definition area_equals_inf : backend_model :=
  model_of (<["energy_cap_max" := zero]>
            (<["resource_area_equals" := inf]> ∅)) [] ∅.

(** Systemwide [equals = inf]. *)
Definition systemwide_inf : backend_model :=
  three_nodes (<["energy_cap_equals_systemwide" := inf]> ∅).

(** The min, max and equals ratios and the charge rate all 2. *)
Definition ratios_2 : backend_model :=
  model_of (<["energy_cap_per_storage_cap_min" := PNum (Fin 2)]>
            (<["energy_cap_per_storage_cap_max" := PNum (Fin 2)]>
             (<["energy_cap_per_storage_cap_equals" := PNum (Fin 2)]>
              (<["charge_rate" := PNum (Fin 2)]>
               (<["resource_area_per_energy_cap" := PNum (Fin 2)]> ∅)))))
           [] ∅.

(** A min ratio of 3 above a max ratio of 1. *)
Definition ratios_crossed : backend_model :=
  model_of (<["energy_cap_per_storage_cap_min" := PNum (Fin 3)]>
            (<["energy_cap_per_storage_cap_max" := PNum (Fin 1)]> ∅)) [] ∅.

(** [storage_cap_equals = 7] as in [stored_7], beside parameters of
    another variable. *)
Definition stored_7_and_more : backend_model :=
  model_of (<["storage_cap_equals" := PNum (Fin 7)]>
            (<["storage_cap_max" := inf]>
             (<["storage_cap_min" := zero]>
              (<["energy_cap_equals" := PNum (Fin 50)]>
               (<["resource_cap_max" := PNum (Fin 9)]> ∅))))) [] ∅.

(** Two area technologies at node N, one at node P; 100 available. *)
Definition two_at_N : area_model :=
  {| resource_area_index := [("N", "pv"); ("P", "pv"); ("N", "csp")];
     available_area := fun _ => PNum (Fin 100) |}.

(** Every capacity 15, every area 40, storage 4 with energy 8. *)
Definition capacities (v : dvar) : Q :=
  match v with
  | DVar name _ _ =>
      if String.eqb name "energy_cap" then 15%Q
      else if String.eqb name "resource_area" then 40%Q
      else 0%Q
  end.

Definition storage_4_energy_8 (v : dvar) : Q :=
  match v with
  | DVar name _ _ =>
      if String.eqb name "storage_cap" then 4%Q
      else if String.eqb name "energy_cap" then 8%Q
      else if String.eqb name "resource_cap" then 8%Q
      else if String.eqb name "resource_area" then 16%Q
      else 0%Q
  end.

Definition nothing_built (v : dvar) : Q := 0%Q.

(** The model of [slack_model] without timesteps. *)
Definition no_timesteps : backend_model :=
  {| param_store := fun _ _ => PNone; nodes := ["N"];
     energy_cap_index := ∅;
     run_config := feasibility_on; objective_sense := "minimize";
     timesteps := [];
     unmet_demand_index := [("power", "N", "t1")];
     unused_supply_index := [("power", "N", "t1")];
     timestep_weights := fun _ => 2%Q; bigM := 10%Q;
     cost_index := [("monetary", "N", "wind")];
     objective_cost_class := [("monetary", 1%Q)] |}.

(** ** Changing one parameter of the store *)

Definition pindex_eqb (i j : pindex) : bool :=
  match i, j with
  | LocTech n t, LocTech n' t' => String.eqb n n' && String.eqb t t'
  | Tech t, Tech t' => String.eqb t t'
  | _, _ => false
  end.

(** The model whose store holds [v] for [name] at [idx] and is that of
    [m] elsewhere. *)
Definition with_param (name : string) (idx : pindex) (v : value)
    (m : backend_model) : backend_model :=
  {| param_store := fun name' idx' =>
       if String.eqb name' name && pindex_eqb idx' idx then v
       else param_store m name' idx';
     nodes := nodes m;
     energy_cap_index := energy_cap_index m;
     run_config := run_config m; objective_sense := objective_sense m;
     timesteps := timesteps m;
     unmet_demand_index := unmet_demand_index m;
     unused_supply_index := unused_supply_index m;
     timestep_weights := timestep_weights m; bigM := bigM m;
     cost_index := cost_index m;
     objective_cost_class := objective_cost_class m |}.

(** [max = +inf] beside a min left at the [False] sentinel. *)
Definition min_unset_max_inf : backend_model :=
  model_of (<["energy_cap_max" := inf]> ∅) [] ∅.

(** [min = 0] beside a max of [None]. *)
Definition max_none : backend_model :=
  model_of (<["energy_cap_max" := PNone]>
            (<["energy_cap_min" := zero]> ∅)) [] ∅.

(** A min of [None] beside [max = 10]. *)
Definition min_none : backend_model :=
  model_of (<["energy_cap_max" := PNum (Fin 10)]>
            (<["energy_cap_min" := PNone]> ∅)) [] ∅.

(** [min = 1] beside a max of [None]. *)
Definition min_1_max_none : backend_model :=
  model_of (<["energy_cap_max" := PNone]>
            (<["energy_cap_min" := PNum (Fin 1)]> ∅)) [] ∅.

(** [max = 10] beside a min left at the [False] sentinel. *)
Definition min_unset_max_10 : backend_model :=
  model_of (<["energy_cap_max" := PNum (Fin 10)]> ∅) [] ∅.

(** * Properties *)

(** ** The look-up log *)

Lemma bind_pair {A B} (a : A) (l : list pkey) (k : A -> M B) :
  mbind k (Return a, l) = (result (k a), (l ++ fetched (k a))%list).
Proof.
  unfold mbind, M_bind, bind, result, fetched. now destruct (k a).
Qed.

Lemma bind_raise {A B} (x : exn) (l : list pkey) (k : A -> M B) :
  mbind k (Raise x, l) = (Raise x, l).
Proof. reflexivity. Qed.

Lemma silent_ret {A} (a : A) : silent (ret a).
Proof. reflexivity. Qed.

Lemma silent_raise {A} (x : exn) : silent (@raise A x).
Proof. reflexivity. Qed.

Lemma silent_np_isinf (v : value) : silent (np_isinf v).
Proof. now destruct v. Qed.

Lemma silent_imul (x s : value) : silent (imul x s).
Proof. unfold imul. now destruct (as_num x), (as_num s). Qed.

Lemma silent_if {A} (b : bool) (c1 c2 : M A) :
  silent c1 -> silent c2 -> silent (if b then c1 else c2).
Proof. now destruct b. Qed.

Lemma silent_bind {A B} (c : M A) (k : A -> M B) :
  silent c -> (forall a, silent (k a)) -> silent (mbind k c).
Proof.
  destruct c as [[a|x] l]; unfold silent; cbn [fetched snd]; intros -> Hk.
  - rewrite bind_pair. apply Hk.
  - reflexivity.
Qed.

Create HintDb silent.
#[local] Hint Resolve silent_ret silent_raise silent_np_isinf silent_imul
  silent_if silent_bind : silent.

Lemma resolve_arg (m : backend_model) (parameter suffix node tech : string)
    (supplied : value) :
  (if negb (truthy supplied)
   then get_param m (parameter +:+ suffix) (LocTech node tech)
   else ret supplied)
  = (Return (resolved m parameter suffix node tech supplied),
     lookup_for parameter suffix node tech supplied).
Proof.
  unfold resolved, lookup_for. now destruct (truthy supplied).
Qed.

(** Unfolds a call to the resolver down to the decision on the resolved
    values. *)
Ltac resolve_args :=
  unfold get_capacity_constraint;
  rewrite  ?(resolve_arg _ _ "_equals"), ?(resolve_arg _ _ "_max"),
    ?(resolve_arg _ _ "_min");
  repeat (rewrite bind_pair; cbv beta);
  unfold result, fetched; cbn [fst snd].

(** Two calls whose arguments resolve to the same three values have
    the same outcome. *)
Lemma result_by_resolved (m1 m2 : backend_model)
    (parameter node tech : string) (e1 h1 l1 e2 h2 l2 scale : value) :
  resolved m1 parameter "_equals" node tech e1
  = resolved m2 parameter "_equals" node tech e2 ->
  resolved m1 parameter "_max" node tech h1
  = resolved m2 parameter "_max" node tech h2 ->
  resolved m1 parameter "_min" node tech l1
  = resolved m2 parameter "_min" node tech l2 ->
  result (get_capacity_constraint m1 parameter node tech e1 h1 l1 scale)
  = result (get_capacity_constraint m2 parameter node tech e2 h2 l2 scale).
Proof.
  intros He Hh Hl. resolve_args. now rewrite He, Hh, Hl.
Qed.

Lemma pindex_eqb_refl (i : pindex) : pindex_eqb i i = true.
Proof. destruct i; cbn; now rewrite ?String.eqb_refl. Qed.

Lemma append_eqb_prefix (p a b : string) :
  String.eqb (p +:+ a) (p +:+ b) = String.eqb a b.
Proof.
  destruct (String.eqb_spec a b) as [-> | Hne].
  - apply String.eqb_refl.
  - apply String.eqb_neq. intros Heq. apply Hne.
    induction p as [|c p IH]; [exact Heq|].
    apply IH. now injection Heq.
Qed.

Lemma with_param_same (name : string) (idx : pindex) (v : value)
    (m : backend_model) :
  param_store (with_param name idx v m) name idx = v.
Proof. cbn. now rewrite String.eqb_refl, pindex_eqb_refl. Qed.

Lemma with_param_other (p a b : string) (idx idx' : pindex) (v : value)
    (m : backend_model) :
  String.eqb a b = false ->
  param_store (with_param (p +:+ b) idx v m) (p +:+ a) idx'
  = param_store m (p +:+ a) idx'.
Proof. intros Hab. cbn. now rewrite append_eqb_prefix, Hab. Qed.

(** Supplying a truthy value has the outcome of leaving the argument
    out on a store that holds the value. *)
Lemma supplied_as_stored (m : backend_model)
    (parameter node tech sfx : string) (x e h l scale : value)
    (e' h' l' : value) :
  truthy x = true ->
  (sfx = "_equals" /\ e = x /\ e' = PNone /\ h' = h /\ l' = l)
  \/ (sfx = "_max" /\ h = x /\ h' = PNone /\ e' = e /\ l' = l)
  \/ (sfx = "_min" /\ l = x /\ l' = PNone /\ e' = e /\ h' = h) ->
  result (get_capacity_constraint m parameter node tech e h l scale)
  = result (get_capacity_constraint
              (with_param (parameter +:+ sfx) (LocTech node tech) x m)
              parameter node tech e' h' l' scale).
Proof.
  intros Hx Hcase.
  destruct Hcase as [(-> & -> & -> & -> & ->)
                    | [(-> & -> & -> & -> & ->) | (-> & -> & -> & -> & ->)]];
    apply result_by_resolved; unfold resolved; cbn [truthy];
    rewrite ?Hx, ?with_param_same; try reflexivity;
    match goal with
    | |- context [truthy ?v] => destruct (truthy v); [reflexivity|]
    end;
    symmetry; now apply with_param_other.
Qed.

(** ** The capacity-constraint resolver *)

Section Resolver.

Variable m : backend_model.
Variables parameter node tech : string.
Variables _equals _max _min scale : value.

Local Abbreviation call :=
  (get_capacity_constraint m parameter node tech _equals _max _min scale).
Local Abbreviation e := (resolved m parameter "_equals" node tech _equals).
Local Abbreviation hi := (resolved m parameter "_max" node tech _max).
Local Abbreviation lo := (resolved m parameter "_min" node tech _min).
Local Abbreviation dv := (DVar parameter node tech).

(** The three arguments are resolved first, and nothing else is looked
    up: the call is the decision on the resolved values. *)
Lemma resolver_fetched :
  fetched call =
  (lookup_for parameter "_equals" node tech _equals
   ++ lookup_for parameter "_max" node tech _max
   ++ lookup_for parameter "_min" node tech _min)%list.
Proof.
  resolve_args.
  match goal with
  | |- context [snd ?c] => assert (Hs : silent c) by auto 10 with silent
  end.
  unfold silent, fetched in Hs. rewrite Hs. now rewrite app_nil_r.
Qed.

(** The outcome depends on the store only through the parameters that
    were looked up. *)
Lemma resolver_frame (m' : backend_model) :
  (forall k, In k (fetched call) ->
             param_store m k.1 k.2 = param_store m' k.1 k.2) ->
  get_capacity_constraint m' parameter node tech _equals _max _min scale
  = call.
Proof.
  rewrite resolver_fetched. intros Hagree.
  assert (He : resolved m' parameter "_equals" node tech _equals = e).
  { unfold resolved. destruct (truthy _equals) eqn:Ht; [reflexivity|].
    symmetry. apply (Hagree (_, _)). unfold lookup_for. rewrite Ht.
    now left. }
  assert (Hhi : resolved m' parameter "_max" node tech _max = hi).
  { unfold resolved. destruct (truthy _max) eqn:Ht; [reflexivity|].
    symmetry. apply (Hagree (_, _)). unfold lookup_for at 2. rewrite Ht.
    apply in_or_app. right. now left. }
  assert (Hlo : resolved m' parameter "_min" node tech _min = lo).
  { unfold resolved. destruct (truthy _min) eqn:Ht; [reflexivity|].
    symmetry. apply (Hagree (_, _)). unfold lookup_for at 3. rewrite Ht.
    apply in_or_app. right. apply in_or_app. right. now left. }
  unfold get_capacity_constraint.
  rewrite !(resolve_arg _ _ "_equals"), !(resolve_arg _ _ "_max"),
    !(resolve_arg _ _ "_min").
  now rewrite He, Hhi, Hlo.
Qed.

(** C2 (infinite-equals law).  Whenever the equals parameter resolves
    to positive infinity, for any capacity variable [parameter], the
    resolver raises a [ModelError] whose message names the parameter,
    the technology and the node; it never reaches the range handling
    and returns no constraint. *)
Theorem infinite_equals_law :
  e = inf ->
  result call
  = Raise (ModelError ("Cannot use inf for " +:+ parameter
                         +:+ "_equals for `" +:+ tech
                         +:+ "` at `" +:+ node +:+ "`")).
Proof.
  intros He. resolve_args. rewrite He. reflexivity.
Qed.

(** C1 (priority law), as amended.  Whenever the resolved equals is
    set (neither [None] nor [False]) and finite, the resolver returns
    the equality of the decision variable with that value, whatever the
    max and min are.  The value is multiplied by the scale exactly when
    the scale is truthy (a non-zero number or [True]); a scale that is
    [None], [False] or zero leaves it as it is. *)
Theorem priority_law :
  is_set e -> finite e ->
  (truthy scale = false -> result call = Return (Equality dv e)) /\
  (truthy scale = true ->
   exists a s, as_num e = Some a /\ as_num scale = Some s /\
               result call = Return (Equality dv (PNum (mul a s)))).
Proof.
  intros Hset Hfin. resolve_args. revert Hset Hfin.
  generalize e as v. intros v [HnN HnF] Hfin.
  destruct v as [|[|]|[q| | |]]; try contradiction; try congruence;
    cbn; (split; intros Hs; rewrite Hs; [reflexivity|]);
    (destruct scale as [|[|]|s]; try discriminate Hs; cbn; eauto).
Qed.

(** C3 (unconstrained law).  Whenever the resolved equals is absent,
    the min resolves to zero and the max to positive infinity, the
    resolver returns the no-constraint marker: not a range, and not an
    error. *)
Theorem unconstrained_law (q : Q) :
  absent e -> lo = PNum (Fin q) -> (q == 0)%Q -> hi = inf ->
  result call = Return NoConstraint.
Proof.
  intros Habs Hlo Hq Hhi. resolve_args. rewrite Hlo, Hhi.
  apply Qeq_bool_iff in Hq.
  destruct Habs as [-> | ->]; cbn; rewrite Hq; reflexivity.
Qed.

(** C6 (range law), as amended.  Whenever the resolved equals is
    absent and the pair of bounds is not the no-constraint case (the
    min comparing equal to 0, as zero and the [False] sentinel do, with
    the max [+inf]), the resolver returns the range of the resolved min
    and max on its decision variable.  Both bounds are multiplied by
    the scale exactly when the scale is truthy; a scale that is [None],
    [False] or zero leaves both as they are.  Left out, neither
    promised nor denied: a min comparing equal to 0 with a max of
    [-inf] or [None], and a bound of [None] under a truthy scale. *)
Theorem range_law :
  absent e ->
  (eq_zero lo = true -> hi <> PNone /\ infinite hi = false) ->
  (truthy scale = false -> result call = Return (Range lo dv hi)) /\
  (truthy scale = true -> lo <> PNone -> hi <> PNone ->
   exists a b s,
     as_num lo = Some a /\ as_num hi = Some b /\ as_num scale = Some s /\
     result call = Return (Range (PNum (mul a s)) dv (PNum (mul b s)))).
Proof.
  intros Habs Hnot. resolve_args. revert Habs Hnot.
  generalize e as v. generalize lo as l. generalize hi as h.
  intros h l v Habs Hnot.
  assert (Hu : (if eq_zero (po_value l)
                then np_isinf (po_value h) else ret false)
               = (Return false, [])).
  { unfold po_value. destruct (eq_zero l) eqn:Hz; [|reflexivity].
    destruct (Hnot eq_refl) as [HnN Hinf].
    destruct h as [|c|x]; [contradiction | reflexivity |].
    cbn in *. now rewrite Hinf. }
  destruct Habs as [-> | ->]; cbn [is_not_False is_not_None po_value andb];
    rewrite Hu, bind_pair; cbv beta;
    (split; [intros Hs; rewrite Hs; reflexivity|]);
    intros Hs HlN HhN; rewrite Hs;
    (destruct scale as [|[|]|s]; try discriminate Hs);
    (destruct l as [|cl|xl]; [contradiction| |]);
    (destruct h as [|ch|xh]; [contradiction| |]); cbn; eauto 10.
Qed.

(** C4 (explicit arguments), as amended.  The store is asked for
    [{parameter}_equals], [{parameter}_max], [{parameter}_min] exactly
    for the arguments that are falsy ([None], [False] or zero), in this
    order, and for nothing else, so that the call is unchanged under
    any change of the store outside the parameters asked for.  A truthy
    argument is used as supplied: the outcome is the one of leaving the
    argument out on a store that holds the supplied value for it; a
    supplied finite equals is the right-hand side of the equality
    returned, and supplied max and min are the bounds of the range
    returned when equals is absent (all under a falsy scale, which
    leaves values as they are). *)
Theorem explicit_arguments (m' : backend_model) :
  fetched call =
  (lookup_for parameter "_equals" node tech _equals
   ++ lookup_for parameter "_max" node tech _max
   ++ lookup_for parameter "_min" node tech _min)%list /\
  ((forall k, In k (fetched call) ->
              param_store m k.1 k.2 = param_store m' k.1 k.2) ->
   get_capacity_constraint m' parameter node tech _equals _max _min scale
   = call) /\
  (truthy _equals = true ->
   result call
   = result (get_capacity_constraint
               (with_param (parameter +:+ "_equals") (LocTech node tech)
                           _equals m)
               parameter node tech PNone _max _min scale)) /\
  (truthy _max = true ->
   result call
   = result (get_capacity_constraint
               (with_param (parameter +:+ "_max") (LocTech node tech)
                           _max m)
               parameter node tech _equals PNone _min scale)) /\
  (truthy _min = true ->
   result call
   = result (get_capacity_constraint
               (with_param (parameter +:+ "_min") (LocTech node tech)
                           _min m)
               parameter node tech _equals _max PNone scale)) /\
  (truthy _equals = true -> infinite _equals = false ->
   truthy scale = false ->
   result call = Return (Equality dv _equals)) /\
  (absent e -> truthy _max = true -> truthy _min = true ->
   truthy scale = false ->
   result call = Return (Range _min dv _max)).
Proof.
  split; [apply resolver_fetched|]. split; [apply resolver_frame|].
  split; [|split; [|split]].
  - intros Hx. apply (supplied_as_stored m parameter node tech "_equals"
                        _equals _equals _max _min scale PNone _max _min Hx).
    left. auto.
  - intros Hx. apply (supplied_as_stored m parameter node tech "_max"
                        _max _equals _max _min scale _equals PNone _min Hx).
    right. left. auto.
  - intros Hx. apply (supplied_as_stored m parameter node tech "_min"
                        _min _equals _max _min scale _equals _max PNone Hx).
    right. right. auto.
  - split.
    + intros Hx Hinf Hs.
      assert (He : e = _equals) by (unfold resolved; now rewrite Hx).
      resolve_args. rewrite He, Hs.
      destruct _equals as [|[|]|[q| | |]]; try discriminate; reflexivity.
    + intros Habs Hh Hl Hs.
      assert (Hhi : hi = _max) by (unfold resolved; now rewrite Hh).
      assert (Hlo : lo = _min) by (unfold resolved; now rewrite Hl).
      resolve_args. rewrite Hhi, Hlo, Hs.
      destruct Habs as [-> | ->]; cbn;
        (destruct _min as [|[|]|x]; try discriminate Hl;
         [reflexivity|]; cbn in Hl; cbn;
         destruct (is_zero x); [discriminate Hl | reflexivity]).
Qed.

End Resolver.

(** ** The rules built on the resolver *)

(** C7 (area zero-forcing), as amended.  When [energy_cap_max]
    compares equal to 0 and the area ratio
    [resource_area_per_energy_cap] is falsy (not set, or zero), the rule
    returns [resource_area == 0], whatever the area bounds are; in every
    other case its outcome is that of the resolver for
    [resource_area]. *)
Theorem area_zero_forcing (m : backend_model) (node tech : string) :
  (eq_zero (param_store m "energy_cap_max" (LocTech node tech)) = true ->
   truthy (param_store m "resource_area_per_energy_cap" (LocTech node tech))
   = false ->
   result (resource_area_constraint_rule m node tech)
   = Return (Equality (DVar "resource_area" node tech) zero)) /\
  (eq_zero (param_store m "energy_cap_max" (LocTech node tech))
   && negb (truthy (param_store m "resource_area_per_energy_cap"
                                (LocTech node tech))) = false ->
   result (resource_area_constraint_rule m node tech)
   = result (get_capacity_constraint m "resource_area" node tech
               PNone PNone PNone PNone)).
Proof.
  unfold resource_area_constraint_rule, get_param, po_value.
  rewrite !bind_pair; cbv beta. unfold result at 1 3; cbn [fst].
  unfold result at 1 3; cbn [fst].
  split.
  - intros -> ->. reflexivity.
  - intros ->. reflexivity.
Qed.

Lemma truthy_not_zero (v : value) : truthy v = true -> eq_zero v = false.
Proof.
  destruct v as [|[|]|x]; cbn; try discriminate; try reflexivity.
  now destruct (is_zero x).
Qed.

(** The terms the systemwide rule sums. *)
Lemma systemwide_terms (m : backend_model) (tech : string) (v : dvar) :
  In v (map (fun node => DVar "energy_cap" node tech)
          (filter (fun node => (node, tech) ∈ energy_cap_index m) (nodes m)))
  <-> exists node, v = DVar "energy_cap" node tech
                   /\ In node (nodes m)
                   /\ (node, tech) ∈ energy_cap_index m.
Proof.
  split.
  - intros Hin. apply in_map_iff in Hin as (node & <- & Hin).
    apply list_elem_of_In, list_elem_of_filter in Hin as [Hidx Hin].
    exists node. split; [reflexivity|]. split; [|exact Hidx].
    now apply list_elem_of_In.
  - intros (node & -> & Hin & Hidx). apply in_map_iff. exists node.
    split; [reflexivity|]. apply list_elem_of_In, list_elem_of_filter.
    split; [exact Hidx|]. now apply list_elem_of_In.
Qed.


(** ** The objective *)

Lemma eval_fold_Add (rho : ovar -> Q) (es : list expr) (acc : expr) :
  eval rho (fold_left Add es acc)
  = fold_left Qplus (map (eval rho) es) (eval rho acc).
Proof.
  revert acc. induction es as [|x es IH]; intros acc; cbn; [reflexivity|].
  now rewrite IH.
Qed.

Lemma eval_py_sum (rho : ovar -> Q) (es : list expr) :
  eval rho (py_sum es) = sumQ (map (eval rho) es).
Proof. apply eval_fold_Add. Qed.

Lemma eval_slice_last (rho : ovar -> Q) (mk : index3 -> ovar)
    (idx : list index3) (t : string) :
  eval rho (py_sum (slice_last mk idx t)) = slack_total rho mk idx t.
Proof.
  rewrite eval_py_sum. unfold slice_last, slack_total.
  now rewrite map_map.
Qed.

Lemma vars_fold_Add (P : ovar -> Prop) (es : list expr) (acc : expr) :
  Forall P (vars acc) -> Forall (fun x => Forall P (vars x)) es ->
  Forall P (vars (fold_left Add es acc)).
Proof.
  revert acc. induction es as [|x es IH]; intros acc Hacc Hes; cbn.
  - exact Hacc.
  - inversion Hes; subst. apply IH; [|assumption].
    cbn. apply Forall_app. now split.
Qed.

Lemma vars_py_sum (P : ovar -> Prop) (es : list expr) :
  Forall (fun x => Forall P (vars x)) es -> Forall P (vars (py_sum es)).
Proof. intros H. apply vars_fold_Add; [constructor | exact H]. Qed.

(** What the penalty built by [obj_rule] amounts to when the sense is
    not "maximize": only the unused supply carries the weight and bigM. *)
Lemma unmet_demand_term_value (rho : ovar -> Q) (m : backend_model) :
  ensure_feasibility m = true ->
  String.eqb (objective_sense m) "maximize" = false ->
  eval rho (unmet_demand_term m)
  = sumQ (map (fun t =>
                 (slack_total rho UnmetDemand (unmet_demand_index m) t
                  - slack_total rho UnusedSupply (unused_supply_index m) t
                    * timestep_weights m t * bigM m)%Q)
              (timesteps m)).
Proof.
  intros Hf Hs. unfold unmet_demand_term. rewrite Hf, Hs.
  rewrite eval_py_sum, map_map. f_equal.
  apply map_ext. intros t. cbn [eval]. now rewrite !eval_slice_last.
Qed.

(** C5 (penalty term).  The claim has the timestep weight and bigM
    multiply the whole difference of unmet demand and unused supply.
    In [obj_rule] they multiply the unused supply only: at unmet demand
    3, unused supply 1, weight 2 and bigM 10 the penalty built is
    3 - 1 x 2 x 10 = -17, where the claimed one is
    (3 - 1) x 2 x 10 = 40. *)
Theorem penalty_weights_unused_supply_only :
  (eval slack_values (unmet_demand_term (slack_model "minimize" feasibility_on))
   == -17)%Q /\
  (penalty_as_specified slack_values (slack_model "minimize" feasibility_on)
   == 40)%Q /\
  ~ (eval slack_values
       (unmet_demand_term (slack_model "minimize" feasibility_on))
     == penalty_as_specified slack_values
          (slack_model "minimize" feasibility_on))%Q.
Proof.
  split; [|split]; vm_compute; [reflexivity | reflexivity | discriminate].
Qed.

(** C9 (objective sign law).  With the feasibility flag on, the
    penalty term built under the sense "maximize" is the one built
    under "minimize" times -1, so that at any one valuation of the
    slack variables its value is the exact negation. *)
Theorem objective_sign_law (rho : ovar -> Q) (m : backend_model) :
  ensure_feasibility m = true ->
  unmet_demand_term (with_sense "maximize" m)
  = Mul (unmet_demand_term (with_sense "minimize" m)) (Const (-1)) /\
  (eval rho (unmet_demand_term (with_sense "maximize" m))
   == - eval rho (unmet_demand_term (with_sense "minimize" m)))%Q.
Proof.
  intros Hf.
  assert (Hs : unmet_demand_term (with_sense "maximize" m)
               = Mul (unmet_demand_term (with_sense "minimize" m))
                     (Const (-1))).
  { unfold unmet_demand_term, ensure_feasibility in *. cbn. now rewrite Hf. }
  split; [exact Hs|]. rewrite Hs. cbn [eval]. ring.
Qed.

(** C10 (no penalty without the flag).  When [ensure_feasibility] is
    absent from the run configuration or [False], the objective has
    the value of the weighted sum over the cost classes of the
    per-class costs, and mentions no [unmet_demand] and no
    [unused_supply] variable at all. *)
Theorem no_penalty_without_flag (rho : ovar -> Q) (m : backend_model) :
  run_config m !! "ensure_feasibility" = None
  \/ run_config m !! "ensure_feasibility" = Some (PBool false) ->
  (eval rho (obj_rule m) == weighted_cost rho m)%Q /\
  Forall (fun v => is_slack v = false) (vars (obj_rule m)).
Proof.
  intros Hflag.
  assert (Hf : ensure_feasibility m = false)
    by (unfold ensure_feasibility; destruct Hflag as [-> | ->]; reflexivity).
  unfold obj_rule, unmet_demand_term. rewrite Hf. split.
  - cbn [eval]. unfold cost_term, weighted_cost.
    rewrite eval_py_sum, map_map.
    rewrite (map_ext _ (fun kv : string * Q =>
               (sumQ (map (fun i => rho (Cost i))
                          (filter (fun i => i.1.1 = kv.1) (cost_index m)))
                * kv.2)%Q)).
    + ring.
    + intros kv. cbn [eval]. rewrite eval_py_sum. unfold slice_first.
      now rewrite map_map.
  - cbn [vars]. rewrite app_nil_r. unfold cost_term.
    apply vars_py_sum, Forall_forall. intros x Hx.
    apply list_elem_of_In, in_map_iff in Hx as (kv & <- & _).
    cbn [vars]. rewrite app_nil_r. apply vars_py_sum, Forall_forall.
    intros y Hy. unfold slice_first in Hy.
    apply list_elem_of_In, in_map_iff in Hy as (i & <- & _).
    cbn. now constructor.
Qed.

(** ** Instances on the sample models *)

Lemma priority_law_witness :
  is_set (resolved equals_50 "energy_cap" "_equals" "N" "t" PNone) /\
  finite (resolved equals_50 "energy_cap" "_equals" "N" "t" PNone) /\
  exists a s,
    as_num (resolved equals_50 "energy_cap" "_equals" "N" "t" PNone) = Some a
    /\ as_num (PNum (Fin 2)) = Some s
    /\ result (get_capacity_constraint equals_50 "energy_cap" "N" "t"
                 PNone PNone PNone (PNum (Fin 2)))
       = Return (Equality (DVar "energy_cap" "N" "t") (PNum (mul a s))).
Proof.
  assert (Hset : is_set (resolved equals_50 "energy_cap" "_equals" "N" "t"
                           PNone))
    by (split; vm_compute; discriminate).
  assert (Hfin : finite (resolved equals_50 "energy_cap" "_equals" "N" "t"
                           PNone))
    by (vm_compute; exact I).
  split; [exact Hset|]. split; [exact Hfin|].
  exact (proj2 (priority_law equals_50 "energy_cap" "N" "t"
                  PNone PNone PNone (PNum (Fin 2)) Hset Hfin) eq_refl).
Defined.

(** C1 as stated fails: a scale of 0 is given, yet the value 50 is not
    multiplied by it. *)
Lemma priority_law_scale_zero :
  is_set (resolved equals_50 "energy_cap" "_equals" "N" "t" PNone) /\
  finite (resolved equals_50 "energy_cap" "_equals" "N" "t" PNone) /\
  is_set zero /\
  result (get_capacity_constraint equals_50 "energy_cap" "N" "t"
            PNone PNone PNone zero)
  = Return (Equality (DVar "energy_cap" "N" "t") (PNum (Fin 50))) /\
  result (get_capacity_constraint equals_50 "energy_cap" "N" "t"
            PNone PNone PNone zero)
  <> Return (Equality (DVar "energy_cap" "N" "t")
               (PNum (mul (Fin 50) (Fin 0)))) /\
  ~ (50 == 50 * 0)%Q.
Proof.
  repeat split; try (vm_compute; discriminate); try exact I.
Qed.

Lemma infinite_equals_law_witness :
  resolved equals_inf "storage_cap" "_equals" "N" "t" PNone = inf /\
  result (get_capacity_constraint equals_inf "storage_cap" "N" "t"
            PNone PNone PNone PNone)
  = Raise (ModelError "Cannot use inf for storage_cap_equals for `t` at `N`").
Proof.
  split; [reflexivity|].
  exact (infinite_equals_law equals_inf "storage_cap" "N" "t"
           PNone PNone PNone PNone eq_refl).
Defined.

Lemma unconstrained_law_witness :
  absent (resolved defaults_only "energy_cap" "_equals" "N" "t" PNone) /\
  resolved defaults_only "energy_cap" "_min" "N" "t" PNone = PNum (Fin 0) /\
  resolved defaults_only "energy_cap" "_max" "N" "t" PNone = inf /\
  result (get_capacity_constraint defaults_only "energy_cap" "N" "t"
            PNone PNone PNone PNone)
  = Return NoConstraint.
Proof.
  assert (Habs : absent (resolved defaults_only "energy_cap" "_equals"
                           "N" "t" PNone)) by (right; reflexivity).
  split; [exact Habs|]. split; [reflexivity|]. split; [reflexivity|].
  exact (unconstrained_law defaults_only "energy_cap" "N" "t"
           PNone PNone PNone PNone 0 Habs eq_refl (Qeq_refl 0) eq_refl).
Defined.

Lemma range_law_witness :
  absent (resolved min_unset_max_10 "energy_cap" "_equals" "N" "t" PNone) /\
  resolved min_unset_max_10 "energy_cap" "_min" "N" "t" PNone = PBool false /\
  result (get_capacity_constraint min_unset_max_10 "energy_cap" "N" "t"
            PNone PNone PNone PNone)
  = Return (Range (PBool false) (DVar "energy_cap" "N" "t") (PNum (Fin 10))) /\
  exists a b s,
    as_num (resolved min_unset_max_10 "energy_cap" "_min" "N" "t" PNone)
    = Some a /\
    as_num (resolved min_unset_max_10 "energy_cap" "_max" "N" "t" PNone)
    = Some b /\
    as_num (PNum (Fin 2)) = Some s /\
    result (get_capacity_constraint min_unset_max_10 "energy_cap" "N" "t"
              PNone PNone PNone (PNum (Fin 2)))
    = Return (Range (PNum (mul a s)) (DVar "energy_cap" "N" "t")
                (PNum (mul b s))).
Proof.
  assert (Habs : absent (resolved min_unset_max_10 "energy_cap" "_equals"
                           "N" "t" PNone)) by (right; reflexivity).
  assert (Hnot : eq_zero (resolved min_unset_max_10 "energy_cap" "_min"
                            "N" "t" PNone) = true ->
                 resolved min_unset_max_10 "energy_cap" "_max" "N" "t" PNone
                 <> PNone
                 /\ infinite (resolved min_unset_max_10 "energy_cap" "_max"
                                "N" "t" PNone) = false)
    by (intros _; split; [vm_compute; discriminate | reflexivity]).
  split; [exact Habs|]. split; [reflexivity|]. split.
  - exact (proj1 (range_law min_unset_max_10 "energy_cap" "N" "t"
                    PNone PNone PNone PNone Habs Hnot) eq_refl).
  - apply (proj2 (range_law min_unset_max_10 "energy_cap" "N" "t"
                    PNone PNone PNone (PNum (Fin 2)) Habs Hnot) eq_refl);
      vm_compute; discriminate.
Defined.

(** C6 as stated fails, in six ways.  By the design of the tests: a
    scale of 0 is given, yet the bounds 1 and 10 are returned as they
    are; and a min left at the [False] sentinel compares equal to 0, so
    that with [max = +inf] no constraint is returned.  By what the
    tests miss: [min = 0] with [max = -inf] is not the pair (0, +inf),
    yet no constraint is returned; [min = 0] with a max of [None]
    raises a [TypeError]; and so do a min of [None] and a max of
    [None] under a scale of 2. *)
Lemma range_law_as_stated_fails :
  (absent (resolved one_to_ten "energy_cap" "_equals" "N" "t" PNone) /\
   is_set zero /\
   result (get_capacity_constraint one_to_ten "energy_cap" "N" "t"
             PNone PNone PNone zero)
   = Return (Range (PNum (Fin 1)) (DVar "energy_cap" "N" "t")
               (PNum (Fin 10))) /\
   ~ (1 == 1 * 0)%Q /\ ~ (10 == 10 * 0)%Q) /\
  (absent (resolved min_unset_max_inf "energy_cap" "_equals" "N" "t" PNone) /\
   resolved min_unset_max_inf "energy_cap" "_min" "N" "t" PNone = PBool false /\
   resolved min_unset_max_inf "energy_cap" "_max" "N" "t" PNone = inf /\
   result (get_capacity_constraint min_unset_max_inf "energy_cap" "N" "t"
             PNone PNone PNone PNone)
   = Return NoConstraint) /\
  (absent (resolved max_minus_inf "energy_cap" "_equals" "N" "t" PNone) /\
   resolved max_minus_inf "energy_cap" "_min" "N" "t" PNone = zero /\
   resolved max_minus_inf "energy_cap" "_max" "N" "t" PNone = PNum NInf /\
   PNum NInf <> inf /\
   result (get_capacity_constraint max_minus_inf "energy_cap" "N" "t"
             PNone PNone PNone PNone)
   = Return NoConstraint) /\
  (absent (resolved max_none "energy_cap" "_equals" "N" "t" PNone) /\
   resolved max_none "energy_cap" "_min" "N" "t" PNone = zero /\
   resolved max_none "energy_cap" "_max" "N" "t" PNone = PNone /\
   result (get_capacity_constraint max_none "energy_cap" "N" "t"
             PNone PNone PNone PNone)
   = Raise TypeError) /\
  (absent (resolved min_none "energy_cap" "_equals" "N" "t" PNone) /\
   resolved min_none "energy_cap" "_min" "N" "t" PNone = PNone /\
   resolved min_none "energy_cap" "_max" "N" "t" PNone = PNum (Fin 10) /\
   result (get_capacity_constraint min_none "energy_cap" "N" "t"
             PNone PNone PNone (PNum (Fin 2)))
   = Raise TypeError) /\
  (absent (resolved min_1_max_none "energy_cap" "_equals" "N" "t" PNone) /\
   resolved min_1_max_none "energy_cap" "_min" "N" "t" PNone = PNum (Fin 1) /\
   resolved min_1_max_none "energy_cap" "_max" "N" "t" PNone = PNone /\
   result (get_capacity_constraint min_1_max_none "energy_cap" "N" "t"
             PNone PNone PNone (PNum (Fin 2)))
   = Raise TypeError).
Proof.
  repeat split; try (right; reflexivity); try (vm_compute; discriminate).
Qed.

Lemma explicit_arguments_witness :
  fetched (get_capacity_constraint stored_7 "storage_cap" "N" "t"
             (PNum (Fin 3)) PNone PNone PNone)
  = [("storage_cap_max", LocTech "N" "t");
     ("storage_cap_min", LocTech "N" "t")] /\
  get_capacity_constraint equals_inf "storage_cap" "N" "t"
    (PNum (Fin 3)) PNone PNone PNone
  = get_capacity_constraint stored_7 "storage_cap" "N" "t"
      (PNum (Fin 3)) PNone PNone PNone /\
  result (get_capacity_constraint stored_7 "storage_cap" "N" "t"
            (PNum (Fin 3)) PNone PNone PNone)
  = Return (Equality (DVar "storage_cap" "N" "t") (PNum (Fin 3))) /\
  result (get_capacity_constraint defaults_only "energy_cap" "N" "t"
            PNone (PNum (Fin 9)) (PNum (Fin 2)) PNone)
  = Return (Range (PNum (Fin 2)) (DVar "energy_cap" "N" "t") (PNum (Fin 9))).
Proof.
  destruct (explicit_arguments stored_7 "storage_cap" "N" "t"
              (PNum (Fin 3)) PNone PNone PNone equals_inf)
    as (Hf & Hframe & _ & _ & _ & Heq & _).
  split; [exact Hf|]. split; [|split].
  - apply Hframe. rewrite Hf.
    intros k [<- | [<- | []]]; reflexivity.
  - exact (Heq eq_refl eq_refl eq_refl).
  - destruct (explicit_arguments defaults_only "energy_cap" "N" "t"
                PNone (PNum (Fin 9)) (PNum (Fin 2)) PNone defaults_only)
      as (_ & _ & _ & _ & _ & _ & Hrange).
    apply Hrange; [right; reflexivity | reflexivity ..].
Defined.

(** C4 as stated fails: an explicit equals of 0 is replaced by the
    stored 7. *)
Lemma explicit_zero_is_looked_up :
  is_set zero /\
  In ("storage_cap_equals", LocTech "N" "t")
     (fetched (get_capacity_constraint stored_7 "storage_cap" "N" "t"
                 zero PNone PNone PNone)) /\
  result (get_capacity_constraint stored_7 "storage_cap" "N" "t"
            zero PNone PNone PNone)
  = Return (Equality (DVar "storage_cap" "N" "t") (PNum (Fin 7))) /\
  ~ (7 == 0)%Q.
Proof.
  repeat split; try (vm_compute; discriminate). now left.
Qed.

Lemma area_zero_forcing_witness :
  result (resource_area_constraint_rule area_no_ratio "N" "t")
  = Return (Equality (DVar "resource_area" "N" "t") zero) /\
  result (resource_area_constraint_rule equals_50 "N" "t")
  = result (get_capacity_constraint equals_50 "resource_area" "N" "t"
              PNone PNone PNone PNone).
Proof.
  split.
  - exact (proj1 (area_zero_forcing area_no_ratio "N" "t") eq_refl eq_refl).
  - exact (proj2 (area_zero_forcing equals_50 "N" "t") eq_refl).
Defined.

(** C7 as stated fails: the area ratio is set (to 0), so the rule
    should delegate, yet the area is forced to 0 where the resolver
    gives the range 0 .. 10. *)
Lemma area_ratio_zero_forces :
  is_set (param_store area_ratio_zero "resource_area_per_energy_cap"
            (LocTech "N" "t")) /\
  result (resource_area_constraint_rule area_ratio_zero "N" "t")
  = Return (Equality (DVar "resource_area" "N" "t") zero) /\
  result (get_capacity_constraint area_ratio_zero "resource_area" "N" "t"
            PNone PNone PNone PNone)
  = Return (Range zero (DVar "resource_area" "N" "t") (PNum (Fin 10))) /\
  result (resource_area_constraint_rule area_ratio_zero "N" "t")
  <> result (get_capacity_constraint area_ratio_zero "resource_area" "N" "t"
               PNone PNone PNone PNone).
Proof.
  repeat split; try (vm_compute; discriminate).
Qed.



Lemma objective_sign_law_witness :
  ensure_feasibility (slack_model "minimize" feasibility_on) = true /\
  (eval slack_values
     (unmet_demand_term
        (with_sense "maximize" (slack_model "minimize" feasibility_on)))
   == - eval slack_values
          (unmet_demand_term
             (with_sense "minimize" (slack_model "minimize" feasibility_on))))%Q.
Proof.
  split; [reflexivity|].
  exact (proj2 (objective_sign_law slack_values
                  (slack_model "minimize" feasibility_on) eq_refl)).
Defined.

Lemma no_penalty_without_flag_witness :
  run_config (slack_model "minimize" ∅) !! "ensure_feasibility" = None /\
  (eval slack_values (obj_rule (slack_model "minimize" ∅))
   == weighted_cost slack_values (slack_model "minimize" ∅))%Q.
Proof.
  split; [reflexivity|].
  exact (proj1 (no_penalty_without_flag slack_values
                  (slack_model "minimize" ∅) (or_introl eq_refl))).
Defined.

(** * Further properties *)

(** ** Outcomes of the resolver *)

Lemma truthy_as_num (s : value) :
  truthy s = true -> exists b, as_num s = Some b.
Proof. destruct s as [|b|x]; [discriminate | | ]; cbn; eauto. Qed.

(** Splits on the scale: falsy, or truthy and then a number. *)
Ltac split_scale scale :=
  let Hs := fresh "Hs" in
  let b := fresh "b" in
  let Hb := fresh "Hb" in
  destruct (truthy scale) eqn:Hs;
  [ destruct (truthy_as_num _ Hs) as [b Hb]; unfold imul; rewrite ?Hb | ].

Section ResolverOutcomes.

Variable m : backend_model.
Variables parameter node tech : string.
Variables _equals _max _min scale : value.

Local Abbreviation call :=
  (get_capacity_constraint m parameter node tech _equals _max _min scale).
Local Abbreviation e := (resolved m parameter "_equals" node tech _equals).
Local Abbreviation hi := (resolved m parameter "_max" node tech _max).
Local Abbreviation lo := (resolved m parameter "_min" node tech _min).
Local Abbreviation dv := (DVar parameter node tech).

(** X1.  With equals set, the resolver raises the [ModelError] exactly
    when equals is infinite, of either sign; otherwise (NaN and [True]
    included) it returns an equality on its own decision variable.  It
    never returns a range or the no-constraint marker, and never raises
    a [TypeError]. *)
Theorem equals_set_outcomes :
  is_set e ->
  (infinite e = true /\
   result call = Raise (ModelError (inf_equals_message parameter node tech)))
  \/ (infinite e = false /\
      exists rhs, result call = Return (Equality dv rhs)).
Proof.
  intros Hset. resolve_args. revert Hset. generalize e as v.
  intros v [HnN HnF].
  split_scale scale;
    (destruct v as [|[|]|[q| | |]]; try congruence; cbn;
     try (left; split; reflexivity);
     right; (split; [reflexivity|]); eauto).
Qed.

(** X2.  With equals absent, the resolver returns the no-constraint
    marker or a range on its own decision variable, or raises a
    [TypeError]; it never returns an equality and never raises the
    [ModelError]. *)
Theorem equals_absent_outcomes :
  absent e ->
  result call = Return NoConstraint
  \/ (exists lo' hi', result call = Return (Range lo' dv hi'))
  \/ result call = Raise TypeError.
Proof.
  intros Habs. resolve_args. revert Habs. generalize e as v.
  generalize lo as l. generalize hi as h. intros h l v Habs.
  split_scale scale;
    (destruct Habs as [-> | ->]; cbn;
     (destruct l as [|[|]|[ql| | |]]; cbn;
      try destruct (Qeq_bool ql 0); cbn;
      destruct h as [|[|]|[qh| | |]]; cbn; eauto)).
Qed.

(** X3.  The resolver raises a [TypeError] exactly when equals is
    absent and a bound it needs is [None]: the max while the min
    compares equal to 0, or either bound while the min does not and a
    truthy scale is to be applied. *)
Theorem type_error_exactly :
  result call = Raise TypeError <->
  absent e /\
  ((eq_zero lo = true /\ hi = PNone)
   \/ (eq_zero lo = false /\ truthy scale = true
       /\ (lo = PNone \/ hi = PNone))).
Proof.
  resolve_args. unfold absent. generalize e as v.
  generalize lo as l. generalize hi as h. intros h l v.
  split_scale scale;
    (destruct v as [|[|]|[q| | |]]; cbn;
     try (split; [discriminate | intros [[?|?] _]; discriminate]);
     (destruct l as [|[|]|[ql| | |]]; cbn;
      try destruct (Qeq_bool ql 0); cbn;
      destruct h as [|[|]|[qh| | |]]; cbn;
      split; try discriminate; intuition congruence)).
Qed.

(** X4.  The resolver returns the no-constraint marker exactly when
    equals is absent, the min compares equal to 0 (zero, or [False])
    and the max is infinite, of either sign; the scale plays no part. *)
Theorem no_constraint_exactly :
  result call = Return NoConstraint <->
  absent e /\ eq_zero lo = true /\ infinite hi = true.
Proof.
  resolve_args. unfold absent. generalize e as v.
  generalize lo as l. generalize hi as h. intros h l v.
  split_scale scale;
    (destruct v as [|[|]|[q| | |]]; cbn;
     try (split; [discriminate | intros [[?|?] _]; discriminate]);
     (destruct l as [|[|]|[ql| | |]]; cbn;
      try destruct (Qeq_bool ql 0); cbn;
      destruct h as [|[|]|[qh| | |]]; cbn;
      split; try discriminate; intuition congruence)).
Qed.

End ResolverOutcomes.

(** ** The bound rules *)

Lemma sumQ_from (l : list Q) (acc : Q) :
  (fold_left Qplus l acc == acc + sumQ l)%Q.
Proof.
  unfold sumQ. revert acc. induction l as [|x l IH]; intros acc; cbn.
  - ring.
  - rewrite (IH (acc + x)%Q), (IH (0 + x)%Q). ring.
Qed.

Lemma sumQ_cons (x : Q) (l : list Q) : (sumQ (x :: l) == x + sumQ l)%Q.
Proof.
  unfold sumQ at 1. cbn. rewrite sumQ_from. ring.
Qed.

Lemma sumQ_nonneg (l : list Q) :
  Forall (fun x => (0 <= x)%Q) l -> (0 <= sumQ l)%Q.
Proof.
  induction 1 as [|x l Hx _ IH].
  - unfold sumQ. cbn. apply Qle_refl.
  - rewrite sumQ_cons. lra.
Qed.

(** In a sum of non-negative terms no term exceeds the sum. *)
Lemma term_below_sum {A} (rho : A -> Q) (vs : list A) (v : A) :
  (forall w, In w vs -> (0 <= rho w)%Q) -> In v vs ->
  (rho v <= sumQ (map rho vs))%Q.
Proof.
  induction vs as [|w vs IH]; intros Hpos Hin; [destruct Hin|].
  cbn [map]. rewrite sumQ_cons.
  assert (Hrest : (0 <= sumQ (map rho vs))%Q).
  { apply sumQ_nonneg, Forall_forall. intros x Hx.
    apply list_elem_of_In, in_map_iff in Hx as (y & <- & Hy).
    apply Hpos. now right. }
  destruct Hin as [<- | Hin].
  - lra.
  - assert (Hw : (0 <= rho w)%Q) by (apply Hpos; now left).
    assert (Hv : (rho v <= sumQ (map rho vs))%Q)
      by (apply IH; [intros x Hx; apply Hpos; now right | exact Hin]).
    lra.
Qed.

Lemma below_trans (x y : Q) (b : value) :
  (x <= y)%Q -> below y b -> below x b.
Proof.
  unfold below. intros Hxy.
  destruct b as [|c|[q| | |]]; cbn; try tauto; intros Hy; lra.
Qed.

Lemma equal_to_below (x y : Q) (b : value) :
  (x <= y)%Q -> equal_to y b -> below x b.
Proof.
  unfold equal_to, below. intros Hxy.
  destruct b as [|c|[q| | |]]; cbn; try tauto; intros Hy; lra.
Qed.

(** X5.  The storage and the resource rule at a (node, tech) pair
    depend on the store only through the three parameters of their own
    variable at that pair: any two models whose stores agree there give
    the same outcome and ask the same look-ups. *)
Theorem bound_rules_local (m m' : backend_model) (node tech : string) :
  ((forall suffix, In suffix ["_equals"; "_max"; "_min"] ->
      param_store m ("storage_cap" +:+ suffix) (LocTech node tech)
      = param_store m' ("storage_cap" +:+ suffix) (LocTech node tech)) ->
   storage_capacity_constraint_rule m' node tech
   = storage_capacity_constraint_rule m node tech) /\
  ((forall suffix, In suffix ["_equals"; "_max"; "_min"] ->
      param_store m ("resource_cap" +:+ suffix) (LocTech node tech)
      = param_store m' ("resource_cap" +:+ suffix) (LocTech node tech)) ->
   resource_capacity_constraint_rule m' node tech
   = resource_capacity_constraint_rule m node tech).
Proof.
  unfold storage_capacity_constraint_rule, resource_capacity_constraint_rule.
  split; intros Hagree; apply resolver_frame; rewrite resolver_fetched;
    cbn; intros k [<- | [<- | [<- | []]]]; cbn; apply Hagree; cbn; auto.
Qed.

(** X6.  The energy rule multiplies the bounds by the stored
    [energy_cap_scale]: with a non-zero finite scale [s], a stored
    finite equals [a] gives [energy_cap == a * s]; and with equals
    absent, stored finite bounds [a] and [b] give the range from
    [a * s] to [b * s]. *)
Theorem energy_rule_scales_bounds (m : backend_model) (node tech : string)
    (s a b : Q) :
  param_store m "energy_cap_scale" (LocTech node tech) = PNum (Fin s) ->
  ~ (s == 0)%Q ->
  (param_store m "energy_cap_equals" (LocTech node tech) = PNum (Fin a) ->
   result (energy_capacity_constraint_rule m node tech)
   = Return (Equality (DVar "energy_cap" node tech) (PNum (Fin (a * s))))) /\
  (absent (param_store m "energy_cap_equals" (LocTech node tech)) ->
   param_store m "energy_cap_min" (LocTech node tech) = PNum (Fin a) ->
   param_store m "energy_cap_max" (LocTech node tech) = PNum (Fin b) ->
   result (energy_capacity_constraint_rule m node tech)
   = Return (Range (PNum (Fin (a * s))) (DVar "energy_cap" node tech)
               (PNum (Fin (b * s))))).
Proof.
  intros Hs Hnz.
  assert (Hq : Qeq_bool s 0 = false).
  { destruct (Qeq_bool s 0) eqn:E; [|reflexivity].
    apply Qeq_bool_iff in E. contradiction. }
  unfold energy_capacity_constraint_rule, get_param.
  rewrite bind_pair. cbv beta. unfold result at 1 3. cbn [fst].
  rewrite Hs. resolve_args. unfold resolved. cbn [truthy].
  change ("energy_cap" +:+ "_equals") with "energy_cap_equals".
  change ("energy_cap" +:+ "_max") with "energy_cap_max".
  change ("energy_cap" +:+ "_min") with "energy_cap_min".
  split.
  - intros ->. cbn. rewrite Hq. reflexivity.
  - intros Habs -> ->. cbn. rewrite Hq.
    destruct Habs as [-> | ->]; cbn; destruct (Qeq_bool a 0); reflexivity.
Qed.

(** X7.  What the resource-area rule asks of the store: when it forces
    the area to zero, [energy_cap_max] and
    [resource_area_per_energy_cap] only, never a bound of
    [resource_area]; otherwise these two and then the three bounds. *)
Theorem area_rule_fetched (m : backend_model) (node tech : string) :
  fetched (resource_area_constraint_rule m node tech)
  = ([("energy_cap_max", LocTech node tech);
      ("resource_area_per_energy_cap", LocTech node tech)]
     ++ (if eq_zero (param_store m "energy_cap_max" (LocTech node tech))
            && negb (truthy (param_store m "resource_area_per_energy_cap"
                                         (LocTech node tech)))
         then []
         else [("resource_area_equals", LocTech node tech);
               ("resource_area_max", LocTech node tech);
               ("resource_area_min", LocTech node tech)]))%list.
Proof.
  unfold resource_area_constraint_rule, get_param, po_value.
  rewrite !bind_pair; cbv beta.
  unfold fetched at 1; cbn [snd]. unfold fetched at 1; cbn [snd].
  destruct (eq_zero _ && negb _).
  - reflexivity.
  - rewrite resolver_fetched. reflexivity.
Qed.

(** X8.  Forcing the area to zero hides an invalid bound: with
    [energy_cap_max] equal to 0, no area ratio and
    [resource_area_equals] infinite, the resource-area rule returns
    [resource_area == 0] where the resolver itself raises the
    [ModelError]. *)
Theorem area_forcing_hides_infinite_equals (m : backend_model)
    (node tech : string) :
  eq_zero (param_store m "energy_cap_max" (LocTech node tech)) = true ->
  truthy (param_store m "resource_area_per_energy_cap" (LocTech node tech))
  = false ->
  infinite (param_store m "resource_area_equals" (LocTech node tech)) = true ->
  result (resource_area_constraint_rule m node tech)
  = Return (Equality (DVar "resource_area" node tech) zero) /\
  result (get_capacity_constraint m "resource_area" node tech
            PNone PNone PNone PNone)
  = Raise (ModelError (inf_equals_message "resource_area" node tech)).
Proof.
  intros Hz Hr Hinf. split.
  - unfold resource_area_constraint_rule, get_param, po_value.
    rewrite !bind_pair; cbv beta. unfold result; cbn [fst].
    now rewrite Hz, Hr.
  - resolve_args. unfold resolved. cbn [truthy].
    change ("resource_area" +:+ "_equals") with "resource_area_equals".
    destruct (param_store m "resource_area_equals" (LocTech node tech))
      as [|c|[q| | |]]; try discriminate Hinf; reflexivity.
Qed.

(** X9.  The systemwide rule has no infinity check: an infinite
    systemwide equals, of either sign, never raises.  When the
    technology is indexed at some node it is returned as the
    right-hand side of the sum equality, where the resolver raises for
    the same value; when the technology is indexed at no node the rule
    returns the Python [bool] [False]. *)
Theorem systemwide_accepts_infinite_equals (m : backend_model)
    (tech : string) :
  infinite (param_store m "energy_cap_equals_systemwide" (Tech tech)) = true ->
  ((exists node, In node (nodes m) /\ (node, tech) ∈ energy_cap_index m) ->
   exists terms,
     result (energy_capacity_systemwide_constraint_rule m tech)
     = Return (SumEquality terms
                 (param_store m "energy_cap_equals_systemwide" (Tech tech))))
  /\ ((forall node, In node (nodes m) ->
                    (node, tech) ∉ energy_cap_index m) ->
      result (energy_capacity_systemwide_constraint_rule m tech)
      = Return (Constant false)).
Proof.
  intros Hinf.
  pose proof (systemwide_terms m tech) as Hterms.
  unfold energy_capacity_systemwide_constraint_rule, get_param.
  rewrite !bind_pair; cbv beta. unfold result; cbn [fst].
  revert Hterms.
  generalize (map (fun node => DVar "energy_cap" node tech)
                (filter (fun node => (node, tech) ∈ energy_cap_index m)
                        (nodes m))) as terms.
  intros terms Hterms.
  destruct (param_store m "energy_cap_equals_systemwide" (Tech tech))
    as [|c|[q| | |]]; try discriminate Hinf; cbn; (split;
    [ intros (node & Hin & Hidx);
      destruct terms as [|t terms];
      [ exfalso; apply (proj2 (Hterms (DVar "energy_cap" node tech)));
        eauto
      | eauto ]
    | intros Hnone; destruct terms as [|t terms]; [reflexivity|];
      exfalso;
      destruct (proj1 (Hterms t) (or_introl eq_refl))
        as (node & _ & Hin & Hidx);
      exact (Hnone node Hin Hidx) ]).
Qed.

(** X10.  A technology indexed at no node gets no constraint from the
    systemwide rule but a Python [bool] or an error: [False] when the
    systemwide equals is truthy; when it is falsy, the truth of
    [0 <= max] for a finite systemwide max, and a [TypeError] when the
    max is [None]. *)
Theorem systemwide_empty_sum (m : backend_model) (tech : string) :
  (forall node, In node (nodes m) -> (node, tech) ∉ energy_cap_index m) ->
  (truthy (param_store m "energy_cap_equals_systemwide" (Tech tech)) = true ->
   result (energy_capacity_systemwide_constraint_rule m tech)
   = Return (Constant false)) /\
  (truthy (param_store m "energy_cap_equals_systemwide" (Tech tech)) = false ->
   (forall q, param_store m "energy_cap_max_systemwide" (Tech tech)
              = PNum (Fin q) ->
              result (energy_capacity_systemwide_constraint_rule m tech)
              = Return (Constant (Qle_bool 0 q))) /\
   (param_store m "energy_cap_max_systemwide" (Tech tech) = PNone ->
    result (energy_capacity_systemwide_constraint_rule m tech)
    = Raise TypeError)).
Proof.
  intros Hnone. unfold energy_capacity_systemwide_constraint_rule, get_param.
  rewrite !bind_pair; cbv beta. unfold result; cbn [fst].
  assert (Hf : filter (fun node => (node, tech) ∈ energy_cap_index m)
                      (nodes m) = []).
  { apply elem_of_nil_inv. intros x Hx.
    apply list_elem_of_filter in Hx as [Hidx Hin].
    apply (Hnone x); [now apply list_elem_of_In | exact Hidx]. }
  rewrite Hf. cbn [map]. split.
  - intros Ht. rewrite Ht. cbn. now rewrite (truthy_not_zero _ Ht).
  - intros ->. split.
    + intros q ->. reflexivity.
    + intros ->. reflexivity.
Qed.

(** X11.  A systemwide constraint caps every node: at a valuation
    with non-negative capacities that meets the constraint, the
    [energy_cap] of each node in the index set is itself at most the
    bound in force (the systemwide equals when truthy, the systemwide
    max otherwise). *)
Theorem systemwide_caps_every_node (m : backend_model) (tech : string)
    (rho : dvar -> Q) (c : constraint) (node : string) :
  result (energy_capacity_systemwide_constraint_rule m tech) = Return c ->
  holds rho c ->
  (forall n, (0 <= rho (DVar "energy_cap" n tech))%Q) ->
  In node (nodes m) -> (node, tech) ∈ energy_cap_index m ->
  below (rho (DVar "energy_cap" node tech))
        (if truthy (param_store m "energy_cap_equals_systemwide" (Tech tech))
         then param_store m "energy_cap_equals_systemwide" (Tech tech)
         else param_store m "energy_cap_max_systemwide" (Tech tech)).
Proof.
  unfold energy_capacity_systemwide_constraint_rule, get_param.
  rewrite !bind_pair; cbv beta. unfold result; cbn [fst].
  intros Hc Hholds Hpos Hin Hidx.
  assert (Hle : (rho (DVar "energy_cap" node tech)
                 <= sumQ (map rho
                      (map (fun node => DVar "energy_cap" node tech)
                         (filter (fun node => (node, tech) ∈ energy_cap_index m)
                                 (nodes m)))))%Q).
  { apply term_below_sum.
    - intros w Hw. apply in_map_iff in Hw as (n & <- & _). apply Hpos.
    - apply in_map_iff. exists node. split; [reflexivity|].
      apply list_elem_of_In, list_elem_of_filter.
      split; [exact Hidx | now apply list_elem_of_In]. }
  revert Hc Hle.
  destruct (map (fun node => DVar "energy_cap" node tech)
              (filter (fun node => (node, tech) ∈ energy_cap_index m)
                      (nodes m))) as [|t terms] eqn:Hterms.
  { exfalso.
    assert (Hmem : In (DVar "energy_cap" node tech)
                      (map (fun node => DVar "energy_cap" node tech)
                         (filter (fun node => (node, tech) ∈ energy_cap_index m)
                            (nodes m))))
      by (apply systemwide_terms; eauto).
    rewrite Hterms in Hmem. destruct Hmem. }
  intros Hc Hle. destruct (truthy _).
  - injection Hc as <-. cbn [holds] in Hholds.
    eapply equal_to_below; eassumption.
  - destruct (param_store m "energy_cap_max_systemwide" (Tech tech));
      try discriminate Hc; injection Hc as <-; cbn [holds] in Hholds;
      eapply below_trans; eassumption.
Qed.

(** ** The rules derived from another variable *)

(** X12.  The deprecated [charge_rate] rule is the max-ratio rule under
    another parameter name: when [charge_rate] and
    [energy_cap_per_storage_cap_max] hold the same value, the two rules
    return the same constraint. *)
Theorem charge_rate_is_max_ratio (m : backend_model) (node tech : string) :
  param_store m "charge_rate" (LocTech node tech)
  = param_store m "energy_cap_per_storage_cap_max" (LocTech node tech) ->
  result (energy_capacity_storage_constraint_rule_old m node tech)
  = result (energy_capacity_storage_max_constraint_rule m node tech).
Proof.
  intros Heq.
  unfold energy_capacity_storage_constraint_rule_old,
    energy_capacity_storage_max_constraint_rule, get_param.
  rewrite !bind_pair. cbv beta. unfold result. cbn [fst]. now rewrite Heq.
Qed.

(** X13.  Equal min and max ratios pin the ratio: when the stored min,
    max and equals ratios are one finite number, a valuation meets the
    constraints of the min rule and of the max rule exactly when it
    meets the constraint of the equals rule. *)
Theorem equal_ratios_pin (m : backend_model) (node tech : string)
    (r : Q) (rho : dvar -> Q) (cmin cmax ceq : derived_constraint) :
  param_store m "energy_cap_per_storage_cap_min" (LocTech node tech)
  = PNum (Fin r) ->
  param_store m "energy_cap_per_storage_cap_max" (LocTech node tech)
  = PNum (Fin r) ->
  param_store m "energy_cap_per_storage_cap_equals" (LocTech node tech)
  = PNum (Fin r) ->
  result (energy_capacity_storage_min_constraint_rule m node tech)
  = Return cmin ->
  result (energy_capacity_storage_max_constraint_rule m node tech)
  = Return cmax ->
  result (energy_capacity_storage_equals_constraint_rule m node tech)
  = Return ceq ->
  (satisfies rho cmin /\ satisfies rho cmax <-> satisfies rho ceq).
Proof.
  unfold energy_capacity_storage_min_constraint_rule,
    energy_capacity_storage_max_constraint_rule,
    energy_capacity_storage_equals_constraint_rule, get_param.
  rewrite !bind_pair. cbv beta. unfold result. cbn [fst].
  intros -> -> -> Hmin Hmax Heq.
  injection Hmin as <-. injection Hmax as <-. injection Heq as <-.
  cbn. split.
  - intros [H1 H2]. lra.
  - intros H. split; lra.
Qed.

(** X14.  A min ratio above the max ratio leaves only the empty
    build: a valuation with a non-negative [storage_cap] that meets the
    constraints of the min rule and of the max rule has [storage_cap]
    and [energy_cap] both 0. *)
Theorem contradictory_ratios_force_zero (m : backend_model)
    (node tech : string) (rmin rmax : Q) (rho : dvar -> Q)
    (cmin cmax : derived_constraint) :
  param_store m "energy_cap_per_storage_cap_min" (LocTech node tech)
  = PNum (Fin rmin) ->
  param_store m "energy_cap_per_storage_cap_max" (LocTech node tech)
  = PNum (Fin rmax) ->
  (rmax < rmin)%Q ->
  result (energy_capacity_storage_min_constraint_rule m node tech)
  = Return cmin ->
  result (energy_capacity_storage_max_constraint_rule m node tech)
  = Return cmax ->
  (0 <= rho (DVar "storage_cap" node tech))%Q ->
  satisfies rho cmin -> satisfies rho cmax ->
  (rho (DVar "storage_cap" node tech) == 0)%Q
  /\ (rho (DVar "energy_cap" node tech) == 0)%Q.
Proof.
  unfold energy_capacity_storage_min_constraint_rule,
    energy_capacity_storage_max_constraint_rule, get_param.
  rewrite !bind_pair. cbv beta. unfold result. cbn [fst].
  intros -> -> Hlt Hmin Hmax Hpos.
  injection Hmin as <-. injection Hmax as <-. cbn. intros H1 H2.
  set (s := rho (DVar "storage_cap" node tech)) in *.
  set (c := rho (DVar "energy_cap" node tech)) in *.
  assert (Hs : (s == 0)%Q).
  { assert (Hprod : (s * (rmin - rmax) <= 0)%Q) by lra.
    destruct (Qlt_le_dec 0 s) as [Hs|Hs]; [|lra].
    assert (Hgt : (0 < s * (rmin - rmax))%Q)
      by (apply Qmult_lt_0_compat; lra).
    lra. }
  split; [exact Hs|].
  assert (Hz1 : (s * rmin == 0)%Q) by (rewrite Hs; ring).
  assert (Hz2 : (s * rmax == 0)%Q) by (rewrite Hs; ring).
  lra.
Qed.

(** X15.  The two resource rules compose: a valuation that meets
    [resource_cap == energy_cap] and, for a finite area ratio [k],
    [resource_area == energy_cap * k] has
    [resource_area == resource_cap * k]. *)
Theorem area_follows_resource_cap (m : backend_model) (node tech : string)
    (k : Q) (rho : dvar -> Q) (csame carea : derived_constraint) :
  param_store m "resource_area_per_energy_cap" (LocTech node tech)
  = PNum (Fin k) ->
  result (resource_capacity_equals_energy_capacity_constraint_rule
            m node tech) = Return csame ->
  result (resource_area_per_energy_capacity_constraint_rule m node tech)
  = Return carea ->
  satisfies rho csame -> satisfies rho carea ->
  (rho (DVar "resource_area" node tech)
   == rho (DVar "resource_cap" node tech) * k)%Q.
Proof.
  unfold resource_capacity_equals_energy_capacity_constraint_rule,
    resource_area_per_energy_capacity_constraint_rule, get_param.
  rewrite !bind_pair. cbv beta. unfold result. cbn [fst].
  intros -> Hsame Harea. injection Hsame as <-. injection Harea as <-.
  cbn. intros H1 H2. rewrite H2, H1. reflexivity.
Qed.

(** X16.  Forcing the area to zero on a zero ratio adds nothing to the
    ratio rule: with [resource_area_per_energy_cap] set to 0, any
    valuation that meets the constraint of the ratio rule meets
    [resource_area == 0], which is what the resource-area rule returns
    when [energy_cap_max] is 0. *)
Theorem zero_ratio_agrees_with_forcing (m : backend_model)
    (node tech : string) (k : Q) (rho : dvar -> Q)
    (carea : derived_constraint) (cforced : constraint) :
  param_store m "resource_area_per_energy_cap" (LocTech node tech)
  = PNum (Fin k) ->
  (k == 0)%Q ->
  eq_zero (param_store m "energy_cap_max" (LocTech node tech)) = true ->
  result (resource_area_per_energy_capacity_constraint_rule m node tech)
  = Return carea ->
  result (resource_area_constraint_rule m node tech) = Return cforced ->
  satisfies rho carea -> holds rho cforced.
Proof.
  unfold resource_area_per_energy_capacity_constraint_rule,
    resource_area_constraint_rule, get_param, po_value.
  rewrite !bind_pair. cbv beta. unfold result. cbn [fst].
  intros -> Hk -> Harea. injection Harea as <-. cbn.
  apply Qeq_bool_iff in Hk as Hkb. rewrite Hkb. cbn.
  intros Hf. injection Hf as <-. cbn. intros H. rewrite H, Hk. ring.
Qed.

(** ** The area budget of a node *)


(** X18.  The area budget caps every technology of the node: at a
    valuation with non-negative areas that meets the constraint, the
    [resource_area] of each technology indexed at the node is itself at
    most the node's [available_area]. *)
Theorem area_budget_caps_each_tech (a : area_model) (node tech : string)
    (rho : dvar -> Q) (c : constraint) :
  result (resource_area_capacity_per_loc_constraint_rule a node) = Return c ->
  holds rho c ->
  (forall t, (0 <= rho (DVar "resource_area" node t))%Q) ->
  In (node, tech) (resource_area_index a) ->
  below (rho (DVar "resource_area" node tech)) (available_area a node).
Proof.
  unfold resource_area_capacity_per_loc_constraint_rule, result, ret.
  cbn [fst]. intros Hc Hholds Hpos Hin. injection Hc as <-.
  cbn [holds] in Hholds. eapply below_trans; [|exact Hholds].
  apply term_below_sum.
  - intros w Hw. apply in_map_iff in Hw as ([n t] & <- & Hw).
    apply list_elem_of_In, list_elem_of_filter in Hw as [Hn _].
    cbn in Hn. subst n. apply Hpos.
  - apply in_map_iff. exists (node, tech). split; [reflexivity|].
    apply list_elem_of_In, list_elem_of_filter.
    split; [reflexivity | now apply list_elem_of_In].
Qed.

(** ** What the objective mentions *)

Lemma in_vars_fold_Add (v : ovar) (es : list expr) (acc : expr) :
  In v (vars (fold_left Add es acc)) <->
  In v (vars acc) \/ exists x, In x es /\ In v (vars x).
Proof.
  revert acc. induction es as [|x es IH]; intros acc; cbn [fold_left].
  - split; [now left | intros [H | (x & [] & _)]; exact H].
  - rewrite IH. cbn [vars]. rewrite in_app_iff. split.
    + intros [[H | H] | (y & Hy & Hv)]; [now left | | ].
      * right. exists x. split; [now left | exact H].
      * right. exists y. split; [now right | exact Hv].
    + intros [H | (y & [<- | Hy] & Hv)].
      * left. now left.
      * left. now right.
      * right. exists y. now split.
Qed.

Lemma in_vars_py_sum (v : ovar) (es : list expr) :
  In v (vars (py_sum es)) <-> exists x, In x es /\ In v (vars x).
Proof.
  unfold py_sum. rewrite in_vars_fold_Add. cbn [vars]. split.
  - intros [[] | H]; exact H.
  - intros H. now right.
Qed.

Lemma in_vars_slice_last (v : ovar) (mk : index3 -> ovar)
    (idx : list index3) (t : string) :
  In v (vars (py_sum (slice_last mk idx t))) <->
  exists i, v = mk i /\ In i idx /\ i.2 = t.
Proof.
  rewrite in_vars_py_sum. unfold slice_last. split.
  - intros (x & Hx & Hv). apply in_map_iff in Hx as (i & <- & Hi).
    apply list_elem_of_In, list_elem_of_filter in Hi as [Ht Hi].
    cbn in Hv. destruct Hv as [<- | []]. exists i.
    split; [reflexivity|]. split; [now apply list_elem_of_In | exact Ht].
  - intros (i & -> & Hi & Ht). exists (Var (mk i)). split; [|now left].
    apply in_map_iff. exists i. split; [reflexivity|].
    apply list_elem_of_In, list_elem_of_filter.
    split; [exact Ht | now apply list_elem_of_In].
Qed.

Lemma in_vars_slice_first (v : ovar) (mk : index3 -> ovar)
    (idx : list index3) (k : string) :
  In v (vars (py_sum (slice_first mk idx k))) <->
  exists i, v = mk i /\ In i idx /\ i.1.1 = k.
Proof.
  rewrite in_vars_py_sum. unfold slice_first. split.
  - intros (x & Hx & Hv). apply in_map_iff in Hx as (i & <- & Hi).
    apply list_elem_of_In, list_elem_of_filter in Hi as [Hk Hi].
    cbn in Hv. destruct Hv as [<- | []]. exists i.
    split; [reflexivity|]. split; [now apply list_elem_of_In | exact Hk].
  - intros (i & -> & Hi & Hk). exists (Var (mk i)). split; [|now left].
    apply in_map_iff. exists i. split; [reflexivity|].
    apply list_elem_of_In, list_elem_of_filter.
    split; [exact Hk | now apply list_elem_of_In].
Qed.

(** X19.  The penalty term mentions exactly the [unmet_demand] and
    [unused_supply] variables whose timestep is one of the model's
    timesteps, and those only while the feasibility flag is truthy;
    slack variables indexed at any other timestep, and every cost
    variable, are left out. *)
Theorem penalty_vars_exactly (m : backend_model) (v : ovar) :
  In v (vars (unmet_demand_term m)) <->
  ensure_feasibility m = true /\
  ((exists i, v = UnmetDemand i /\ In i (unmet_demand_index m)
              /\ In i.2 (timesteps m))
   \/ (exists i, v = UnusedSupply i /\ In i (unused_supply_index m)
                 /\ In i.2 (timesteps m))).
Proof.
  unfold unmet_demand_term. destruct (ensure_feasibility m).
  2: { cbn. split; [intros [] | intros [H _]; discriminate H]. }
  assert (Hbody : forall es,
            In v (vars (if String.eqb (objective_sense m) "maximize"
                        then Mul es (Const (-1)) else es))
            <-> In v (vars es)).
  { intros es. destruct (String.eqb _ _); [|reflexivity].
    cbn [vars]. rewrite in_app_iff. cbn. tauto. }
  rewrite Hbody, in_vars_py_sum. split.
  - intros (x & Hx & Hv). split; [reflexivity|].
    apply in_map_iff in Hx as (t & <- & Ht).
    cbn [vars] in Hv. rewrite !in_app_iff in Hv. cbn [In] in Hv.
    rewrite !in_vars_slice_last in Hv.
    destruct Hv as [(i & -> & Hi & Hit) | [[(i & -> & Hi & Hit) | []] | []]];
      [left | right]; exists i; subst t; auto.
  - intros [_ [(i & -> & Hi & Ht) | (i & -> & Hi & Ht)]];
      eexists; (split; [apply in_map_iff; exists i.2; split;
                         [reflexivity | exact Ht] |]);
      cbn [vars]; rewrite !in_app_iff, !in_vars_slice_last.
    + left. exists i. auto.
    + right. left. left. exists i. auto.
Qed.

(** X20.  The cost part of the objective mentions exactly the [cost]
    variables whose class has a weight in [objective_cost_class]; the
    costs of a class without a weight are left out, and no slack
    variable is mentioned. *)
Theorem cost_vars_exactly (m : backend_model) (v : ovar) :
  In v (vars (cost_term m)) <->
  exists i, v = Cost i /\ In i (cost_index m)
            /\ exists w, In (i.1.1, w) (objective_cost_class m).
Proof.
  unfold cost_term. rewrite in_vars_py_sum. split.
  - intros (x & Hx & Hv). apply in_map_iff in Hx as ([k w] & <- & Hkw).
    cbn [vars fst snd] in Hv. rewrite in_app_iff in Hv. cbn [In] in Hv.
    rewrite in_vars_slice_first in Hv.
    destruct Hv as [(i & -> & Hi & Hk) | []]. exists i.
    split; [reflexivity|]. split; [exact Hi|]. exists w. now rewrite Hk.
  - intros (i & -> & Hi & w & Hw).
    eexists. split; [apply in_map_iff; exists (i.1.1, w); split;
                      [reflexivity | exact Hw] |].
    cbn [vars fst snd]. rewrite in_app_iff, in_vars_slice_first.
    left. exists i. auto.
Qed.

(** X22.  With no timesteps the penalty is empty: even with the
    feasibility flag on, and under either sense, the objective has the
    value of the weighted costs alone. *)
Theorem no_timesteps_no_penalty (rho : ovar -> Q) (m : backend_model) :
  timesteps m = [] ->
  (eval rho (obj_rule m) == weighted_cost rho m)%Q.
Proof.
  intros Ht. unfold obj_rule. cbn [eval].
  assert (Hpen : (eval rho (unmet_demand_term m) == 0)%Q).
  { unfold unmet_demand_term. rewrite Ht. cbn [map].
    destruct (ensure_feasibility m); [|reflexivity].
    destruct (String.eqb _ _); cbn; ring. }
  rewrite Hpen. unfold cost_term, weighted_cost.
  rewrite eval_py_sum, map_map.
  rewrite (map_ext _ (fun kv : string * Q =>
             (sumQ (map (fun i => rho (Cost i))
                        (filter (fun i => i.1.1 = kv.1) (cost_index m)))
              * kv.2)%Q)).
  - ring.
  - intros kv. cbn [eval]. rewrite eval_py_sum. unfold slice_first.
    now rewrite map_map.
Qed.

(** ** Two more properties of the bound rules *)

(** X23.  The systemwide rule of one technology depends on the model
    only through the nodes, the membership of that technology's pairs
    in the index set and the two systemwide parameters of that
    technology. *)
Theorem systemwide_rule_local (m m' : backend_model) (tech : string) :
  nodes m' = nodes m ->
  (forall node, (node, tech) ∈ energy_cap_index m'
                <-> (node, tech) ∈ energy_cap_index m) ->
  param_store m' "energy_cap_max_systemwide" (Tech tech)
  = param_store m "energy_cap_max_systemwide" (Tech tech) ->
  param_store m' "energy_cap_equals_systemwide" (Tech tech)
  = param_store m "energy_cap_equals_systemwide" (Tech tech) ->
  energy_capacity_systemwide_constraint_rule m' tech
  = energy_capacity_systemwide_constraint_rule m tech.
Proof.
  intros Hn Hidx Hmax Heq.
  unfold energy_capacity_systemwide_constraint_rule, get_param.
  rewrite Hn, Hmax, Heq.
  rewrite (list_filter_iff (fun node => (node, tech) ∈ energy_cap_index m')
             (fun node => (node, tech) ∈ energy_cap_index m) (nodes m) Hidx).
  reflexivity.
Qed.

(** X24.  Dropping the constraint loses nothing when the max is
    positive infinity: whenever the resolver returns the no-constraint
    marker and the max resolved to [+inf], every non-negative value of
    the decision variable lies in the range from the resolved min to
    the resolved max that was left out. *)
Theorem no_constraint_loses_nothing (m : backend_model)
    (parameter node tech : string) (_equals _max _min scale : value)
    (rho : dvar -> Q) :
  result (get_capacity_constraint m parameter node tech
            _equals _max _min scale) = Return NoConstraint ->
  resolved m parameter "_max" node tech _max = inf ->
  (0 <= rho (DVar parameter node tech))%Q ->
  holds rho (Range (resolved m parameter "_min" node tech _min)
                   (DVar parameter node tech)
                   (resolved m parameter "_max" node tech _max)).
Proof.
  resolve_args. intros Hres Hmax Hpos. rewrite Hmax in *.
  cbn [holds below inf]. split; [|exact I].
  revert Hres.
  generalize (resolved m parameter "_equals" node tech _equals) as v.
  generalize (resolved m parameter "_min" node tech _min) as l.
  intros l v. split_scale scale;
    (destruct v as [|[|]|[q| | |]]; cbn; try discriminate;
     destruct l as [|[|]|[ql| | |]]; cbn; try discriminate;
     try (destruct (Qeq_bool ql 0) eqn:E; cbn; try discriminate;
          apply Qeq_bool_iff in E; intros _; lra);
     intros _; exact Hpos).
Qed.

(** ** Instances of the further properties *)

Lemma equals_set_outcomes_witness :
  is_set (resolved equals_inf "storage_cap" "_equals" "N" "t" PNone) /\
  ((infinite (resolved equals_inf "storage_cap" "_equals" "N" "t" PNone)
    = true /\
    result (get_capacity_constraint equals_inf "storage_cap" "N" "t"
              PNone PNone PNone PNone)
    = Raise (ModelError (inf_equals_message "storage_cap" "N" "t")))
   \/ (infinite (resolved equals_inf "storage_cap" "_equals" "N" "t" PNone)
       = false /\
       exists rhs,
         result (get_capacity_constraint equals_inf "storage_cap" "N" "t"
                   PNone PNone PNone PNone)
         = Return (Equality (DVar "storage_cap" "N" "t") rhs))).
Proof.
  assert (Hset : is_set (resolved equals_inf "storage_cap" "_equals"
                           "N" "t" PNone))
    by (split; vm_compute; discriminate).
  split; [exact Hset|].
  exact (equals_set_outcomes equals_inf "storage_cap" "N" "t"
           PNone PNone PNone PNone Hset).
Defined.

Lemma equals_absent_outcomes_witness :
  absent (resolved one_to_ten "energy_cap" "_equals" "N" "t" PNone) /\
  (result (get_capacity_constraint one_to_ten "energy_cap" "N" "t"
             PNone PNone PNone PNone) = Return NoConstraint
   \/ (exists lo' hi',
         result (get_capacity_constraint one_to_ten "energy_cap" "N" "t"
                   PNone PNone PNone PNone)
         = Return (Range lo' (DVar "energy_cap" "N" "t") hi'))
   \/ result (get_capacity_constraint one_to_ten "energy_cap" "N" "t"
                PNone PNone PNone PNone) = Raise TypeError).
Proof.
  assert (Habs : absent (resolved one_to_ten "energy_cap" "_equals"
                           "N" "t" PNone)) by (right; reflexivity).
  split; [exact Habs|].
  exact (equals_absent_outcomes one_to_ten "energy_cap" "N" "t"
           PNone PNone PNone PNone Habs).
Defined.

Lemma bound_rules_local_witness :
  storage_capacity_constraint_rule stored_7_and_more "N" "t"
  = storage_capacity_constraint_rule stored_7 "N" "t".
Proof.
  apply (proj1 (bound_rules_local stored_7 stored_7_and_more "N" "t")).
  intros suffix [<- | [<- | [<- | []]]]; reflexivity.
Defined.

Lemma energy_rule_scales_bounds_witness :
  param_store scaled_equals "energy_cap_scale" (LocTech "N" "t")
  = PNum (Fin 2) /\
  ~ (2 == 0)%Q /\
  result (energy_capacity_constraint_rule scaled_equals "N" "t")
  = Return (Equality (DVar "energy_cap" "N" "t") (PNum (Fin (50 * 2)))).
Proof.
  assert (Hnz : ~ (2 == 0)%Q) by (vm_compute; discriminate).
  split; [reflexivity|]. split; [exact Hnz|].
  exact (proj1 (energy_rule_scales_bounds scaled_equals "N" "t" 2 50 0
                  eq_refl Hnz) eq_refl).
Defined.

Lemma area_forcing_hides_infinite_equals_witness :
  infinite (param_store area_equals_inf "resource_area_equals"
              (LocTech "N" "t")) = true /\
  result (resource_area_constraint_rule area_equals_inf "N" "t")
  = Return (Equality (DVar "resource_area" "N" "t") zero) /\
  result (get_capacity_constraint area_equals_inf "resource_area" "N" "t"
            PNone PNone PNone PNone)
  = Raise (ModelError (inf_equals_message "resource_area" "N" "t")).
Proof.
  split; [reflexivity|].
  exact (area_forcing_hides_infinite_equals area_equals_inf "N" "t"
           eq_refl eq_refl eq_refl).
Defined.

Lemma systemwide_accepts_infinite_equals_witness :
  infinite (param_store systemwide_inf "energy_cap_equals_systemwide"
              (Tech "wind")) = true /\
  (exists terms,
     result (energy_capacity_systemwide_constraint_rule systemwide_inf "wind")
     = Return (SumEquality terms
                 (param_store systemwide_inf "energy_cap_equals_systemwide"
                    (Tech "wind")))).
Proof.
  split; [reflexivity|].
  apply (proj1 (systemwide_accepts_infinite_equals systemwide_inf "wind"
                  eq_refl)).
  exists "A". split; [now left|].
  apply (bool_decide_eq_true_1 _). vm_compute. reflexivity.
Defined.

Lemma systemwide_empty_sum_witness :
  result (energy_capacity_systemwide_constraint_rule systemwide_30 "solar")
  = Return (Constant false) /\
  result (energy_capacity_systemwide_constraint_rule systemwide_0 "solar")
  = Return (Constant (Qle_bool 0 100)).
Proof.
  assert (Hnone : forall m' : backend_model,
            energy_cap_index m'
            = ({[ ("A", "wind"); ("C", "wind") ]} : gset (string * string)) ->
            forall node, In node (nodes m') ->
                         (node, "solar") ∉ energy_cap_index m').
  { intros m' -> node _ Hin.
    apply elem_of_union in Hin as [Hin | Hin];
      apply elem_of_singleton in Hin; discriminate Hin. }
  split.
  - exact (proj1 (systemwide_empty_sum systemwide_30 "solar"
                    (Hnone systemwide_30 eq_refl)) eq_refl).
  - exact (proj1 (proj2 (systemwide_empty_sum systemwide_0 "solar"
                           (Hnone systemwide_0 eq_refl)) eq_refl)
             100%Q eq_refl).
Defined.

Lemma systemwide_caps_every_node_witness :
  holds capacities
    (SumEquality [DVar "energy_cap" "A" "wind"; DVar "energy_cap" "C" "wind"]
       (PNum (Fin 30))) /\
  below (capacities (DVar "energy_cap" "A" "wind")) (PNum (Fin 30)).
Proof.
  assert (Hholds : holds capacities
            (SumEquality [DVar "energy_cap" "A" "wind";
                          DVar "energy_cap" "C" "wind"] (PNum (Fin 30))))
    by (vm_compute; reflexivity).
  split; [exact Hholds|].
  apply (systemwide_caps_every_node systemwide_30 "wind" capacities _ "A"
           eq_refl Hholds).
  - intros n. vm_compute. discriminate.
  - now left.
  - apply (bool_decide_eq_true_1 _). vm_compute. reflexivity.
Defined.

Lemma charge_rate_is_max_ratio_witness :
  param_store ratios_2 "charge_rate" (LocTech "N" "t")
  = param_store ratios_2 "energy_cap_per_storage_cap_max" (LocTech "N" "t") /\
  result (energy_capacity_storage_constraint_rule_old ratios_2 "N" "t")
  = result (energy_capacity_storage_max_constraint_rule ratios_2 "N" "t").
Proof.
  split; [reflexivity|].
  exact (charge_rate_is_max_ratio ratios_2 "N" "t" eq_refl).
Defined.

Lemma equal_ratios_pin_witness :
  satisfies storage_4_energy_8
    (Scaled (DVar "energy_cap" "N" "t") AtLeast (DVar "storage_cap" "N" "t")
       (PNum (Fin 2))) /\
  satisfies storage_4_energy_8
    (Scaled (DVar "energy_cap" "N" "t") AtMost (DVar "storage_cap" "N" "t")
       (PNum (Fin 2)))
  <-> satisfies storage_4_energy_8
        (Scaled (DVar "energy_cap" "N" "t") EqualTo
           (DVar "storage_cap" "N" "t") (PNum (Fin 2))).
Proof.
  exact (equal_ratios_pin ratios_2 "N" "t" 2 storage_4_energy_8 _ _ _
           eq_refl eq_refl eq_refl eq_refl eq_refl eq_refl).
Defined.

Lemma contradictory_ratios_force_zero_witness :
  (1 < 3)%Q /\
  satisfies nothing_built
    (Scaled (DVar "energy_cap" "N" "t") AtLeast (DVar "storage_cap" "N" "t")
       (PNum (Fin 3))) /\
  satisfies nothing_built
    (Scaled (DVar "energy_cap" "N" "t") AtMost (DVar "storage_cap" "N" "t")
       (PNum (Fin 1))) /\
  (nothing_built (DVar "storage_cap" "N" "t") == 0)%Q /\
  (nothing_built (DVar "energy_cap" "N" "t") == 0)%Q.
Proof.
  assert (Hlt : (1 < 3)%Q) by reflexivity.
  assert (Hmin : satisfies nothing_built
            (Scaled (DVar "energy_cap" "N" "t") AtLeast
               (DVar "storage_cap" "N" "t") (PNum (Fin 3))))
    by (vm_compute; discriminate).
  assert (Hmax : satisfies nothing_built
            (Scaled (DVar "energy_cap" "N" "t") AtMost
               (DVar "storage_cap" "N" "t") (PNum (Fin 1))))
    by (vm_compute; discriminate).
  assert (Hpos : (0 <= nothing_built (DVar "storage_cap" "N" "t"))%Q)
    by (vm_compute; discriminate).
  split; [exact Hlt|]. split; [exact Hmin|]. split; [exact Hmax|].
  exact (contradictory_ratios_force_zero ratios_crossed "N" "t" 3 1
           nothing_built _ _ eq_refl eq_refl Hlt eq_refl eq_refl
           Hpos Hmin Hmax).
Defined.

Lemma area_follows_resource_cap_witness :
  (storage_4_energy_8 (DVar "resource_area" "N" "t")
   == storage_4_energy_8 (DVar "resource_cap" "N" "t") * 2)%Q.
Proof.
  apply (area_follows_resource_cap ratios_2 "N" "t" 2 storage_4_energy_8
           _ _ eq_refl eq_refl eq_refl); vm_compute; reflexivity.
Defined.

Lemma zero_ratio_agrees_with_forcing_witness :
  satisfies nothing_built
    (Scaled (DVar "resource_area" "N" "t") EqualTo
       (DVar "energy_cap" "N" "t") zero) /\
  holds nothing_built (Equality (DVar "resource_area" "N" "t") zero).
Proof.
  assert (Hsat : satisfies nothing_built
            (Scaled (DVar "resource_area" "N" "t") EqualTo
               (DVar "energy_cap" "N" "t") zero))
    by (vm_compute; reflexivity).
  split; [exact Hsat|].
  exact (zero_ratio_agrees_with_forcing area_ratio_zero "N" "t" 0
           nothing_built _ _ eq_refl (Qeq_refl 0) eq_refl eq_refl eq_refl
           Hsat).
Defined.

Lemma area_budget_caps_each_tech_witness :
  holds capacities
    (SumAtMost [DVar "resource_area" "N" "pv"; DVar "resource_area" "N" "csp"]
       (PNum (Fin 100))) /\
  below (capacities (DVar "resource_area" "N" "csp")) (PNum (Fin 100)).
Proof.
  assert (Hholds : holds capacities
            (SumAtMost [DVar "resource_area" "N" "pv";
                        DVar "resource_area" "N" "csp"] (PNum (Fin 100))))
    by (vm_compute; discriminate).
  split; [exact Hholds|].
  apply (area_budget_caps_each_tech two_at_N "N" "csp" capacities _
           eq_refl Hholds).
  - intros t. vm_compute. discriminate.
  - right. right. now left.
Defined.

Lemma no_timesteps_no_penalty_witness :
  ensure_feasibility no_timesteps = true /\
  (eval slack_values (obj_rule no_timesteps)
   == weighted_cost slack_values no_timesteps)%Q.
Proof.
  split; [reflexivity|].
  exact (no_timesteps_no_penalty slack_values no_timesteps eq_refl).
Defined.

Lemma systemwide_rule_local_witness :
  energy_capacity_systemwide_constraint_rule
    (with_sense "maximize" systemwide_30) "wind"
  = energy_capacity_systemwide_constraint_rule systemwide_30 "wind".
Proof.
  apply systemwide_rule_local; [reflexivity | | reflexivity | reflexivity].
  intros node. reflexivity.
Defined.

Lemma no_constraint_loses_nothing_witness :
  result (get_capacity_constraint defaults_only "energy_cap" "N" "t"
            PNone PNone PNone PNone) = Return NoConstraint /\
  holds capacities
    (Range (resolved defaults_only "energy_cap" "_min" "N" "t" PNone)
           (DVar "energy_cap" "N" "t")
           (resolved defaults_only "energy_cap" "_max" "N" "t" PNone)).
Proof.
  split; [reflexivity|].
  apply (no_constraint_loses_nothing defaults_only "energy_cap" "N" "t"
           PNone PNone PNone PNone capacities eq_refl eq_refl).
  vm_compute. discriminate.
Defined.
